(** * FieldEditor: the cell-edit lifecycle controller

    A shallow embedding of [app/client/widgets/FieldEditor.ts]: the
    fast-accept path ([saveWithoutEditor]), the equality-gated cell write
    ([setAndSave]), the [FieldEditor] session (constructor, [rebuildEditor],
    formula-mode toggles, cancel and the asynchronous [_doSaveEdit]) and the
    stand-alone formula editor ([openFormulaEditor]).

    The objects a session reaches through [this] form one record; every
    method is a function in a state monad over that record, and every effect
    on a collaborator (a write sent to the document, an emitted event, a
    console warning, a tooltip) is appended to a log kept in the record.
    An [async] function is cut at its [await]s into synchronous segments;
    what the rest of the event loop does during a suspension is a list of
    explicit actions. *)

From Stdlib Require Import ZArith Ascii String List Bool Lia SpecFloat.
Import ListNotations.
Set Warnings "-register-all".
Local Open Scope string_scope.
Local Open Scope list_scope.

(** ** Cell values ([app/common/DocActions]: [CellValue]) *)

(** [number | string | boolean | null | [code, ...args]].  A JS number is an
    IEEE-754 double, kept as the [spec_float] of the Standard Library (a
    finite double in its canonical mantissa and exponent). *)
Inductive CellValue : Type :=
| VNull
| VBool (b : bool)
| VNum (x : spec_float)
| VStr (s : string)
| VArr (items : list CellValue).

(** JS [===] on numbers: IEEE equality ([NaN] differs from itself, the two
    zeros are equal). *)
Definition numStrictEq (x y : spec_float) : bool := SFeqb x y.

(** lodash [eq] (SameValueZero): [value === other || (value !== value && other !== other)]. *)
Definition lodashEq (x y : spec_float) : bool :=
  numStrictEq x y || (negb (numStrictEq x x) && negb (numStrictEq y y)).

(** lodash [isEqual] on cell values: primitives by [eq], arrays by length
    and element-wise, values of different kinds never equal. *)
Fixpoint isEqual (a b : CellValue) {struct a} : bool :=
  match a, b with
  | VNull, VNull => true
  | VBool x, VBool y => Bool.eqb x y
  | VNum x, VNum y => lodashEq x y
  | VStr s, VStr t => String.eqb s t
  | VArr xs, VArr ys =>
      (fix equalArrays (l : list CellValue) (r : list CellValue) {struct l} : bool :=
         match l, r with
         | [], [] => true
         | x :: l', y :: r' => isEqual x y && equalArrays l' r'
         | _, _ => false
         end) xs ys
  | _, _ => false
  end.

(** The array case of [isEqual], named. *)
Fixpoint equalArrays (l r : list CellValue) : bool :=
  match l, r with
  | [], [] => true
  | x :: l', y :: r' => isEqual x y && equalArrays l' r'
  | _, _ => false
  end.

(** "Deep equality" as a relation, in the words of the specification:
    scalars of the same kind that are the same value (numbers up to the sign
    of zero, [NaN] equal to itself), and arrays of the same length whose
    elements are deep-equal in order. *)
Inductive sameNumber : spec_float -> spec_float -> Prop :=
| same_nan : sameNumber S754_nan S754_nan
| same_zero s t : sameNumber (S754_zero s) (S754_zero t)
| same_inf s : sameNumber (S754_infinity s) (S754_infinity s)
| same_fin s m e : sameNumber (S754_finite s m e) (S754_finite s m e).

Inductive deepEquals : CellValue -> CellValue -> Prop :=
| de_null : deepEquals VNull VNull
| de_bool b : deepEquals (VBool b) (VBool b)
| de_num x y : sameNumber x y -> deepEquals (VNum x) (VNum y)
| de_str s : deepEquals (VStr s) (VStr s)
| de_arr xs ys : Forall2 deepEquals xs ys -> deepEquals (VArr xs) (VArr ys).

(** JS [v === s] for a cell value against a string. *)
Definition strictEqStr (v : CellValue) (s : string) : bool :=
  match v with
  | VStr t => String.eqb t s
  | _ => false
  end.

(** [Array.isArray(v) && v[0] === code]. *)
Definition hasCode (code : string) (v : CellValue) : bool :=
  match v with
  | VArr (c :: _) => strictEqStr c code
  | _ => false
  end.

(** Modelled from the spec: [isRaisedException] of [app/common/gristTypes] is
    not under src/; a raised-exception marker is an array whose code is ['E']. *)
Definition isRaisedException (v : CellValue) : bool := hasCode "E" v.

(** Modelled from the spec: [gutil.startsWith] and [gutil.removePrefix] of
    [app/common/gutil] are not under src/; "the typed text begins with [=]"
    and "the leading [=] is then stripped". [removePrefix] gives [None]
    (JS [null]) when the prefix is absent. *)
Definition startsWith (s p : string) : bool := String.prefix p s.

Definition removePrefix (s p : string) : option string :=
  if startsWith s p
  then Some (String.substring (String.length p) (String.length s - String.length p) s)
  else None.

(** ** Records of the document model, as far as the controller reads them *)

Record ColumnRec := mkColumnRec {
  colId : string;
  isFormula : bool;
  formula : string;
  isEmpty : bool;
  isRealFormula : bool;
  hasTriggerFormula : bool;
  pureType : string
}.

Record ViewFieldRec := mkViewFieldRec {
  column : ColumnRec;
  fieldColId : string;          (* field.colId() *)
  editingFormula : bool;        (* the "formula-editing UI" observable *)
  colRef : Z;
  viewSectionId : Z             (* field.viewSection.peek().id.peek() *)
}.

Record Cursor := mkCursor { rowIndex : option Z }.   (* number | null *)

Inductive UIRowId := RowNew | RowNum (n : Z).         (* number | 'new' *)

Record DataRowModel := mkDataRowModel {
  getRowId : UIRowId;
  cells : string -> CellValue;  (* cells[colId].peek() *)
  _isAddRow : bool
}.

Record CellPosition := mkCellPosition {
  rowId : UIRowId;
  posColRef : Z;
  sectionId : Z
}.

Definition EditorState := string.   (* [any]: the editor's serialised snapshot *)

Record FieldEditorStateEvent := mkStateEvent {
  position : CellPosition;
  wasModified : bool;
  currentState : option EditorState;
  type : string
}.

(** ** Editors ([NewBaseEditor] and its constructors) *)

Inductive CursorPos := PosInfinity | PosAt (n : Z).   (* Number.POSITIVE_INFINITY or a number *)

(** The command table handed to the editor: the session's own table, or the
    one rewired for a read-only session. *)
Inductive IEditorCommandGroup := EditCommands (rewiredReadonly : bool).

(** The options of [editorCtor.create]; [gristDoc] and [field] are references
    to the shared objects and are not copied here. *)
Record EditorOptions := mkEditorOptions {
  cellValue : CellValue;
  formulaError : option CellValue;
  editValue : option string;
  cursorPos : CursorPos;
  state : option EditorState;
  commands : IEditorCommandGroup;
  readonly : bool
}.

(** What a widget answers when asked: its value, its text, its caret, and
    the content of its [editorState] observable when it has one. *)
Record EditorView := mkEditorView {
  viewCellValue : CellValue;
  viewTextValue : string;
  viewCursorPos : Z;
  viewEditorState : option EditorState
}.

(** [typeof NewBaseEditor]: the optional static [skipEditor] and the widget
    a fresh instance shows for given options. *)
Record IEditorConstructor := mkEditorCtor {
  skipEditor : option (option string -> CellValue -> option CellValue);
  render : EditorOptions -> EditorView
}.

Record NewBaseEditor := mkEditor {
  ctor : IEditorConstructor;
  options : EditorOptions;
  view : EditorView
}.

Definition create (c : IEditorConstructor) (o : EditorOptions) : NewBaseEditor :=
  mkEditor c o (render c o).

Definition getCellValue (e : NewBaseEditor) : CellValue := viewCellValue (view e).
Definition getTextValue (e : NewBaseEditor) : string := viewTextValue (view e).
Definition getCursorPos (e : NewBaseEditor) : Z := viewCursorPos (view e).
Definition editorState (e : NewBaseEditor) : option EditorState := viewEditorState (view e).

(** ** Effects on collaborators, in the order they happen *)

Inductive DocWrite :=
| UpdateColValues (isFormulaNow : bool) (formulaNow : CellValue)  (* col.updateColValues({isFormula, formula}) *)
| UpdateFormula (formulaNow : CellValue)                          (* column.updateColValues({formula}) *)
| AddEmptyRecord.                                                 (* editRow.updateColValues({}) *)

Inductive Settlement := Resolved | Rejected.

Inductive Event :=
| EvCellWrite (row : UIRowId) (col : string) (v : CellValue)  (* cells[colId].setAndSave(v) *)
| EvBundle (ws : list DocWrite)                               (* docData.bundleActions(null, ...) *)
| EvColumnWrite (w : DocWrite)                                (* an unbundled column write *)
| EvOnSave (col : ColumnRec) (formulaNow : CellValue)         (* options.onSave(column, formula) *)
| EvOnCancel                                                  (* options.onCancel() *)
| EvSettled (r : Settlement)                                  (* an awaited write has settled *)
| EvEmitSave (e : FieldEditorStateEvent)
| EvEmitCancel (e : FieldEditorStateEvent)
| EvEmitChange (e : FieldEditorStateEvent)
| EvWarn (msg : string)                                       (* console.warn *)
| EvTooltip                                                   (* showTooltipToCreateFormula *)
| EvFetchFormulaError                                         (* docData.getFormulaError(...) *)
| EvAttach (e : NewBaseEditor)                                (* editor.attach(cellElem) *)
| EvDisposeEditor                                             (* the holder disposes its editor *)
| EvPrepForSave                                               (* editor.prepForSave() *)
| EvMonitor                                                   (* editorMonitor.monitorEditor(this) *)
| EvCleanup (forReadonly : bool)                              (* setup[Readonly]EditorCleanup *)
| EvDispose.                                                  (* the session's disposal has run *)

(** A promise: already resolved with nothing to wait for, or pending on the
    document. *)
Inductive Promise := PromiseDone | PromisePending.

(** The promise returned by one call of [_doSaveEdit], by where the call
    stands: suspended at [await editor.prepForSave()], suspended at
    [await waitPromise], or settled. *)
Inductive Outcome := Fulfilled (jumped : bool) | Threw.

Inductive SavePromise :=
| AwaitPrep (editor : NewBaseEditor) (saveIndex : option Z)
| AwaitWrite (isFormulaSave : bool) (saveIndex : option Z) (waitPromise : option Promise)
| Settled (r : Outcome).

(** ** The session: [this] and the objects it references *)

Record FieldEditor := mkFieldEditor {
  _field : ViewFieldRec;
  _cursor : Cursor;
  _editRow : DataRowModel;
  _editorCtor : IEditorConstructor;
  _editorHolder : option NewBaseEditor;
  _saveEdit : option nat;             (* asyncOnce's cached promise, by index in [promises] *)
  promises : list SavePromise;        (* every promise [_doSaveEdit] has returned *)
  _editorHasChanged : bool;
  _isFormula : bool;
  _readonly : bool;
  isDisposed : bool;
  log : list Event
}.

Definition with_field (f : ViewFieldRec) (w : FieldEditor) : FieldEditor :=
  mkFieldEditor f (_cursor w) (_editRow w) (_editorCtor w) (_editorHolder w) (_saveEdit w)
    (promises w) (_editorHasChanged w) (_isFormula w) (_readonly w) (isDisposed w) (log w).
Definition with_cursor (c : Cursor) (w : FieldEditor) : FieldEditor :=
  mkFieldEditor (_field w) c (_editRow w) (_editorCtor w) (_editorHolder w) (_saveEdit w)
    (promises w) (_editorHasChanged w) (_isFormula w) (_readonly w) (isDisposed w) (log w).
Definition with_editRow (r : DataRowModel) (w : FieldEditor) : FieldEditor :=
  mkFieldEditor (_field w) (_cursor w) r (_editorCtor w) (_editorHolder w) (_saveEdit w)
    (promises w) (_editorHasChanged w) (_isFormula w) (_readonly w) (isDisposed w) (log w).
Definition with_editorHolder (h : option NewBaseEditor) (w : FieldEditor) : FieldEditor :=
  mkFieldEditor (_field w) (_cursor w) (_editRow w) (_editorCtor w) h (_saveEdit w)
    (promises w) (_editorHasChanged w) (_isFormula w) (_readonly w) (isDisposed w) (log w).
Definition with_saveEdit (v : option nat) (w : FieldEditor) : FieldEditor :=
  mkFieldEditor (_field w) (_cursor w) (_editRow w) (_editorCtor w) (_editorHolder w) v
    (promises w) (_editorHasChanged w) (_isFormula w) (_readonly w) (isDisposed w) (log w).
Definition with_promises (ps : list SavePromise) (w : FieldEditor) : FieldEditor :=
  mkFieldEditor (_field w) (_cursor w) (_editRow w) (_editorCtor w) (_editorHolder w) (_saveEdit w)
    ps (_editorHasChanged w) (_isFormula w) (_readonly w) (isDisposed w) (log w).
Definition with_editorHasChanged (b : bool) (w : FieldEditor) : FieldEditor :=
  mkFieldEditor (_field w) (_cursor w) (_editRow w) (_editorCtor w) (_editorHolder w) (_saveEdit w)
    (promises w) b (_isFormula w) (_readonly w) (isDisposed w) (log w).
Definition with_isFormula (b : bool) (w : FieldEditor) : FieldEditor :=
  mkFieldEditor (_field w) (_cursor w) (_editRow w) (_editorCtor w) (_editorHolder w) (_saveEdit w)
    (promises w) (_editorHasChanged w) b (_readonly w) (isDisposed w) (log w).
Definition with_isDisposed (b : bool) (w : FieldEditor) : FieldEditor :=
  mkFieldEditor (_field w) (_cursor w) (_editRow w) (_editorCtor w) (_editorHolder w) (_saveEdit w)
    (promises w) (_editorHasChanged w) (_isFormula w) (_readonly w) b (log w).
Definition with_log (l : list Event) (w : FieldEditor) : FieldEditor :=
  mkFieldEditor (_field w) (_cursor w) (_editRow w) (_editorCtor w) (_editorHolder w) (_saveEdit w)
    (promises w) (_editorHasChanged w) (_isFormula w) (_readonly w) (isDisposed w) l.

Definition with_editingFormula (b : bool) (f : ViewFieldRec) : ViewFieldRec :=
  mkViewFieldRec (column f) (fieldColId f) b (colRef f) (viewSectionId f).
Definition with_column (c : ColumnRec) (f : ViewFieldRec) : ViewFieldRec :=
  mkViewFieldRec c (fieldColId f) (editingFormula f) (colRef f) (viewSectionId f).

(** ** A state monad over the session *)

Definition M (A : Type) : Type := FieldEditor -> A * FieldEditor.

Definition ret {A} (a : A) : M A := fun w => (a, w).
Definition bind {A B} (m : M A) (k : A -> M B) : M B :=
  fun w => let (a, w') := m w in k a w'.
Definition gets {A} (f : FieldEditor -> A) : M A := fun w => (f w, w).
Definition modify (f : FieldEditor -> FieldEditor) : M unit := fun w => (tt, f w).
Definition emit (e : Event) : M unit := modify (fun w => with_log (log w ++ [e]) w).
Definition when (b : bool) (m : M unit) : M unit := if b then m else ret tt.

Declare Scope session_scope.
Delimit Scope session_scope with session.
Notation "x <- m ;; k" := (bind m (fun x => k))
  (at level 61, m at next level, right associativity) : session_scope.
Notation "m ;; k" := (bind m (fun _ => k))
  (at level 61, right associativity) : session_scope.
Local Open Scope session_scope.

(** The events written by a computation are those after the old log. *)
Definition writesDoc (e : Event) : bool :=
  match e with
  | EvCellWrite _ _ _ | EvBundle _ | EvColumnWrite _ | EvOnSave _ _ => true
  | _ => false
  end.

Definition docWrites (l : list Event) : list Event := filter writesDoc l.

Definition isAttach (e : Event) : bool :=
  match e with EvAttach _ => true | _ => false end.

(** ** The free functions: [setAndSave] and [saveWithoutEditor]

    Both run without a session; they return their result with the events
    they cause. *)

(** [setAndSave(editRow, field, value)]: write only if different from the
    current value of the cell.  The promise is the one of the observable's
    write, or an already resolved one when nothing is written. *)
Definition setAndSave (editRow : DataRowModel) (field : ViewFieldRec) (value : CellValue)
  : Promise * list Event :=
  let obs := cells editRow (fieldColId field) in
  if negb (isEqual value obs)
  then (PromisePending, [EvCellWrite (getRowId editRow) (fieldColId field) value])
  else (PromiseDone, []).

(** [saveWithoutEditor(editorCtor, editRow, field, typedVal)]. *)
Definition saveWithoutEditor (editorCtor : IEditorConstructor) (editRow : DataRowModel)
    (field : ViewFieldRec) (typedVal : option string) : bool * list Event :=
  if negb (isRealFormula (column field)) then
    match skipEditor editorCtor with
    | Some skip =>
        let origVal := cells editRow (fieldColId field) in
        match skip typedVal origVal with
        | Some skipEditorValue => (true, snd (setAndSave editRow field skipEditorValue))
        | None => (false, [])
        end
    | None => (false, [])
    end
  else (false, []).

(** Run such a function inside a session: its events go to the log. *)
Definition liftW {A} (r : A * list Event) : M A :=
  fun w => (fst r, with_log (log w ++ snd r) w).

(** [getFormulaError(gristDoc, editRow, column)]: the observable's seed, and
    the request for details. *)
Definition getFormulaError (editRow : DataRowModel) (col : ColumnRec)
  : option CellValue * list Event :=
  let cellCurrentValue := cells editRow (colId col) in
  if (isFormula col || hasTriggerFormula col) && isRaisedException cellCurrentValue
  then (Some cellCurrentValue, [EvFetchFormulaError])
  else (None, []).

(** ** Methods of [FieldEditor] *)

Section Controller.

(** [FormulaEditor] of [app/client/widgets/FormulaEditor], imported by the
    controller. *)
Variable FormulaEditor : IEditorConstructor.

Definition cellPosition (w : FieldEditor) : CellPosition :=
  mkCellPosition (getRowId (_editRow w)) (colRef (_field w)) (viewSectionId (_field w)).

(** The event built by save, cancel and the change listener. *)
Definition stateEvent (w : FieldEditor) : FieldEditorStateEvent :=
  mkStateEvent (cellPosition w) (_editorHasChanged w)
    (match _editorHolder w with Some e => editorState e | None => None end)
    (pureType (column (_field w))).

(** [rebuildEditor(editValue, cursorPos, state)]. *)
Definition rebuildEditor (editValue : option string) (cursorPos : CursorPos)
    (state : option EditorState) : M unit :=
  isF <- gets _isFormula ;;
  ownCtor <- gets _editorCtor ;;
  let editorCtor := if isF then FormulaEditor else ownCtor in
  field <- gets _field ;;
  editRow <- gets _editRow ;;
  let col := column field in
  let cellCurrentValue := cells editRow (fieldColId field) in
  let cellValue :=
    if isFormula col then VStr (formula col)
    else if hasCode "C" cellCurrentValue then VStr ""
    else cellCurrentValue in
  error <- liftW (getFormulaError editRow col) ;;
  ro <- gets _readonly ;;
  when (negb ro)
    (modify (fun w => with_field
       (with_editingFormula (isF && match editValue with Some _ => true | None => false end)
          (_field w)) w)) ;;
  modify (with_editorHasChanged false) ;;
  old <- gets _editorHolder ;;
  when (match old with Some _ => true | None => false end) (emit EvDisposeEditor) ;;
  let editor := create editorCtor
    (mkEditorOptions cellValue error editValue cursorPos state (EditCommands ro) ro) in
  modify (with_editorHolder (Some editor)) ;;
  emit (EvAttach editor).

(** The listener on [editor.editorState], run at each live change. *)
Definition onEditorStateChange : M unit :=
  modify (with_editorHasChanged true) ;;
  ev <- gets stateEvent ;;
  emit (EvEmitChange ev).

(** [_offerToMakeFormula()]. *)
Definition _offerToMakeFormula : M unit :=
  h <- gets _editorHolder ;;
  match h with
  | None => ret tt
  | Some _ => emit EvTooltip
  end.

(** [_makeFormula()]: [true] lets the keystroke propagate. *)
Definition _makeFormula : M bool :=
  h <- gets _editorHolder ;;
  field <- gets _field ;;
  match h with
  | Some editor =>
      if negb (editingFormula field) && (getCursorPos editor =? 0)%Z then
        if isEmpty (column field) then
          modify (with_isFormula true) ;;
          rebuildEditor (Some (getTextValue editor)) (PosAt 0) None ;;
          ret false
        else
          _offerToMakeFormula ;; ret true
      else ret true
  | None => ret true
  end.

(** [_unmakeFormula()]. *)
Definition _unmakeFormula : M bool :=
  h <- gets _editorHolder ;;
  field <- gets _field ;;
  match h with
  | Some editor =>
      if editingFormula field && (getCursorPos editor =? 0)%Z
         && negb (isRealFormula (column field)) then
        modify (with_isFormula false) ;;
        rebuildEditor (Some ("=" ++ getTextValue editor)%string) (PosAt 1) None ;;
        ret false
      else ret true
  | None => ret true
  end.

(** [_convertEditorToFormula()], the tooltip's callback. *)
Definition _convertEditorToFormula : M unit :=
  h <- gets _editorHolder ;;
  match h with
  | Some editor =>
      let editValue := getTextValue editor in
      let formulaValue :=
        if startsWith editValue "="
        then String.substring 1 (String.length editValue - 1) editValue
        else editValue in
      modify (with_isFormula true) ;;
      rebuildEditor (Some formulaValue) (PosAt 0) None
  | None => ret tt
  end.

(** [dispose()] of grainjs, with what this class registered for disposal:
    the cleanup callback unsets [field.editingFormula], the holder disposes
    its editor.  A second call does nothing. *)
Definition dispose : M unit :=
  d <- gets isDisposed ;;
  if d then ret tt else
    modify (fun w => with_field (with_editingFormula false (_field w)) w) ;;
    h <- gets _editorHolder ;;
    when (match h with Some _ => true | None => false end) (emit EvDisposeEditor) ;;
    modify (with_editorHolder None) ;;
    modify (with_isDisposed true) ;;
    emit EvDispose.

(** [_cancelEdit()]. *)
Definition _cancelEdit : M unit :=
  d <- gets isDisposed ;;
  if d then ret tt else
    ev <- gets stateEvent ;;
    emit (EvEmitCancel ev) ;;
    dispose.

(** *** [_doSaveEdit], cut at its two [await]s *)

(** JS [a === b] on [number | null]. *)
Definition indexEq (a b : option Z) : bool :=
  match a, b with
  | Some x, Some y => (x =? y)%Z
  | None, None => true
  | _, _ => false
  end.

(** Up to [await editor.prepForSave()]: either the early [return false], or
    the editor and row index the suspended call keeps. *)
Definition doSaveEdit_start : M (bool + NewBaseEditor * option Z) :=
  h <- gets _editorHolder ;;
  match h with
  | None => ret (inl false)
  | Some editor =>
      c <- gets _cursor ;;
      let saveIndex := rowIndex c in
      emit EvPrepForSave ;;
      ret (inr (editor, saveIndex))
  end.

(** From the resumption after [prepForSave] up to [await waitPromise]. *)
Definition doSaveEdit_afterPrep (editor : NewBaseEditor)
  : M (bool + bool * option Promise) :=
  d <- gets isDisposed ;;
  if d then
    emit (EvWarn "Unable to finish saving edited cell") ;;
    ret (inl false)
  else
    field <- gets _field ;;
    editRow <- gets _editRow ;;
    let isF := editingFormula field in
    let col := column field in
    waitPromise <-
      (if isF then
         let formulaText := getCellValue editor in
         if negb (Bool.eqb isF (isFormula col)) || negb (strictEqStr formulaText (formula col))
         then
           emit (EvBundle (UpdateColValues isF formulaText ::
                   (if _isAddRow editRow && negb (strictEqStr formulaText "")
                    then [AddEmptyRecord] else []))) ;;
           ret (Some PromisePending)
         else ret None
       else
         let value := getCellValue editor in
         if isRealFormula col then
           emit (EvWarn "It should be impossible to save a plain data value into a formula column") ;;
           ret None
         else
           p <- liftW (setAndSave editRow field value) ;;
           ret (Some p)) ;;
    ev <- gets stateEvent ;;
    emit (EvEmitSave ev) ;;
    dispose ;;
    ret (inr (isF, waitPromise)).

(** How [await waitPromise] settles: [null] and a promise with nothing
    pending resolve; a pending write settles as the document decides. *)
Definition awaitWrite (waitPromise : option Promise) (r : Settlement) : M Settlement :=
  match waitPromise with
  | Some PromisePending => emit (EvSettled r) ;; ret r
  | _ => ret Resolved
  end.

(** After [await waitPromise]: the returned flag. *)
Definition doSaveEdit_finish (isF : bool) (saveIndex : option Z) : M bool :=
  c <- gets _cursor ;;
  ret (isF || negb (indexEq saveIndex (rowIndex c))).

(** *** The rest of the event loop *)

(** What else can happen to the session and its shared objects while a save
    is suspended (or at any other time between two turns). *)
Inductive EnvAction :=
| SetRowIndex (i : option Z)          (* the grid re-sorts, the cursor moves *)
| SetColumn (c : ColumnRec)           (* applied actions change the column *)
| SetCell (col : string) (v : CellValue)
| SetEditingFormula (b : bool)
| UserInput (v : EditorView)          (* typing in the widget *)
| CmdCancel                           (* fieldEditCancel *)
| CmdMakeFormula
| CmdUnmakeFormula
| AcceptOffer                         (* the tooltip's button *)
| OwnerDispose.                       (* the owner tears the session down *)

Definition setCell (col : string) (v : CellValue) (r : DataRowModel) : DataRowModel :=
  mkDataRowModel (getRowId r) (fun c => if String.eqb c col then v else cells r c) (_isAddRow r).

Definition env_step (a : EnvAction) : M unit :=
  match a with
  | SetRowIndex i => modify (with_cursor (mkCursor i))
  | SetColumn c => modify (fun w => with_field (with_column c (_field w)) w)
  | SetCell col v => modify (fun w => with_editRow (setCell col v (_editRow w)) w)
  | SetEditingFormula b => modify (fun w => with_field (with_editingFormula b (_field w)) w)
  | UserInput v =>
      h <- gets _editorHolder ;;
      match h with
      | Some e =>
          modify (with_editorHolder (Some (mkEditor (ctor e) (options e) v))) ;;
          match editorState e with
          | Some _ => onEditorStateChange
          | None => ret tt
          end
      | None => ret tt
      end
  | CmdCancel => _cancelEdit
  | CmdMakeFormula =>
      ro <- gets _readonly ;;
      if ro then ret tt else (_makeFormula ;; ret tt)
  | CmdUnmakeFormula =>
      ro <- gets _readonly ;;
      if ro then ret tt else (_unmakeFormula ;; ret tt)
  | AcceptOffer => _convertEditorToFormula
  | OwnerDispose => dispose
  end.

Fixpoint env_run (acts : list EnvAction) : M unit :=
  match acts with
  | [] => ret tt
  | a :: rest => env_step a ;; env_run rest
  end.

(** *** One whole call of [_doSaveEdit] *)

(** How the two awaited operations settle, and what happens meanwhile. *)
Record Schedule := mkSchedule {
  duringPrep : list EnvAction;
  prepSettles : Settlement;
  duringWrite : list EnvAction;
  writeSettles : Settlement
}.

Definition _doSaveEdit (sch : Schedule) : M Outcome :=
  s1 <- doSaveEdit_start ;;
  match s1 with
  | inl r => ret (Fulfilled r)
  | inr (editor, saveIndex) =>
      env_run (duringPrep sch) ;;
      match prepSettles sch with
      | Rejected => ret Threw
      | Resolved =>
          s2 <- doSaveEdit_afterPrep editor ;;
          match s2 with
          | inl r => ret (Fulfilled r)
          | inr (isF, waitPromise) =>
              env_run (duringWrite sch) ;;
              r <- awaitWrite waitPromise (writeSettles sch) ;;
              match r with
              | Rejected => ret Threw
              | Resolved =>
                  b <- doSaveEdit_finish isF saveIndex ;;
                  ret (Fulfilled b)
              end
          end
      end
  end.

End Controller.

(** ** Single-flight calls *)

(** Modelled from the spec: [asyncOnce] of [app/common/AsyncCreate] is not
    under src/.  "First call starts the underlying operation and caches its
    pending/settled result; subsequent calls before settlement return the
    same pending handle; after settlement the cache is not reset."  [value]
    and [setValue] read and write the cache, [createFunc] runs the operation
    up to its first suspension and returns its promise. *)
Definition asyncOnce {W H : Type} (value : W -> option H) (setValue : option H -> W -> W)
    (createFunc : W -> H * W) : W -> H * W :=
  fun w =>
    match value w with
    | Some h => (h, w)
    | None => let (h, w') := createFunc w in (h, setValue (Some h) w')
    end.

(** Replace the state of promise [p]. *)
Fixpoint setPromise {A} (p : nat) (s : A) (ps : list A) : list A :=
  match ps, p with
  | [], _ => []
  | _ :: rest, O => s :: rest
  | x :: rest, S p' => x :: setPromise p' s rest
  end.

Section Session.

Variable FormulaEditor : IEditorConstructor.

(** A call of [this._doSaveEdit()]: runs to the first [await] and returns a
    new promise. *)
Definition doSaveEdit_call : M nat :=
  s1 <- doSaveEdit_start ;;
  ps <- gets promises ;;
  modify (with_promises (ps ++ [match s1 with
                                | inl r => Settled (Fulfilled r)
                                | inr (editor, saveIndex) => AwaitPrep editor saveIndex
                                end])) ;;
  ret (List.length ps).

(** [this._saveEdit = asyncOnce(() => this._doSaveEdit())]. *)
Definition saveEdit_call : M nat :=
  asyncOnce _saveEdit with_saveEdit doSaveEdit_call.

(** The turns of the event loop that concern a session. *)
Inductive Action :=
| CallSaveEdit                              (* a command or click-away calls [_saveEdit()] *)
| SettlePrep (p : nat) (r : Settlement)     (* [prepForSave()] of call [p] settles *)
| SettleWrite (p : nat) (r : Settlement)    (* the awaited write of call [p] settles *)
| Env (a : EnvAction).

Definition settle (p : nat) (s : SavePromise) : M unit :=
  modify (fun w => with_promises (setPromise p s (promises w)) w).

Definition step (a : Action) : M (option nat) :=
  match a with
  | CallSaveEdit => h <- saveEdit_call ;; ret (Some h)
  | SettlePrep p r =>
      ps <- gets promises ;;
      match nth_error ps p with
      | Some (AwaitPrep editor saveIndex) =>
          match r with
          | Rejected => settle p (Settled Threw)
          | Resolved =>
              s2 <- doSaveEdit_afterPrep editor ;;
              match s2 with
              | inl b => settle p (Settled (Fulfilled b))
              | inr (isF, waitPromise) => settle p (AwaitWrite isF saveIndex waitPromise)
              end
          end
      | _ => ret tt
      end ;;
      ret None
  | SettleWrite p r =>
      ps <- gets promises ;;
      match nth_error ps p with
      | Some (AwaitWrite isF saveIndex waitPromise) =>
          r' <- awaitWrite waitPromise r ;;
          match r' with
          | Rejected => settle p (Settled Threw)
          | Resolved =>
              b <- doSaveEdit_finish isF saveIndex ;;
              settle p (Settled (Fulfilled b))
          end
      | _ => ret tt
      end ;;
      ret None
  | Env e => env_step FormulaEditor e ;; ret None
  end.

(** A run of turns; the handles the [_saveEdit()] calls returned, in order. *)
Fixpoint run (acts : list Action) : M (list nat) :=
  match acts with
  | [] => ret []
  | a :: rest =>
      h <- step a ;;
      hs <- run rest ;;
      ret (match h with Some x => x :: hs | None => hs end)
  end.

(** *** The constructor *)

Record Options := mkOptions {
  optField : ViewFieldRec;
  optCursor : Cursor;
  optEditRow : DataRowModel;
  optEditorCtor : IEditorConstructor;
  startVal : option string;
  optState : option EditorState;
  optReadonly : bool
}.

(** JS truthiness of [string | undefined]. *)
Definition truthy (s : option string) : bool :=
  match s with
  | Some t => negb (String.eqb t "")
  | None => false
  end.

Definition textOf (s : option string) : string :=
  match s with Some t => t | None => "" end.

(** The body of the constructor, on the freshly initialised fields. *)
Definition constructorBody (o : Options) : M unit :=
  field <- gets _field ;;
  let col := column field in
  modify (with_isFormula (isRealFormula col)) ;;
  isF <- gets _isFormula ;;
  eo <- (if negb (optReadonly o) && truthy (startVal o) && startsWith (textOf (startVal o)) "="
         then
           if isF || isEmpty col then
             modify (with_isFormula true) ;;
             ret (removePrefix (textOf (startVal o)) "=", false)
           else ret (startVal o, true)
         else ret (startVal o, false)) ;;
  rebuildEditor FormulaEditor (fst eo) PosInfinity (optState o) ;;
  when (snd eo) _offerToMakeFormula ;;
  emit EvMonitor ;;
  emit (EvCleanup (optReadonly o)).

Definition constructor (o : Options) : FieldEditor :=
  snd (constructorBody o
         (mkFieldEditor (optField o) (optCursor o) (optEditRow o) (optEditorCtor o)
            None None [] false false (optReadonly o) false [])).

(** *** The command table [_editCommands]

    The synchronous part of each command: the propagation flag it returns
    ([None] for [undefined]).  The save commands of an editable session call
    [_saveEdit()]; the reactions they chain on its promise run after it
    settles and call the global commands only. *)
Inductive CommandName :=
| fieldEditSave | fieldEditSaveHere | fieldEditCancel | prevField | nextField
| makeFormula | unmakeFormula.

Definition runCommand (c : CommandName) : M (option bool) :=
  ro <- gets _readonly ;;
  if ro then
    match c with
    | makeFormula | unmakeFormula => ret (Some true)
    | _ => _cancelEdit ;; ret None
    end
  else
    match c with
    | fieldEditCancel => _cancelEdit ;; ret None
    | makeFormula => b <- _makeFormula FormulaEditor ;; ret (Some b)
    | unmakeFormula => b <- _unmakeFormula FormulaEditor ;; ret (Some b)
    | _ => saveEdit_call ;; ret None
    end.

End Session.

(** ** The stand-alone formula editor ([openFormulaEditor]) *)

Record PaneOptions := mkPaneOptions {
  paneOptField : ViewFieldRec;
  paneOptEditRow : option DataRowModel;
  paneOptEditValue : option string;
  paneOptOnSave : bool;        (* is [options.onSave] given *)
  paneOptOnCancel : bool       (* is [options.onCancel] given *)
}.

(** The promise of one run of the pane's save closure. *)
Inductive PanePromise := PaneAwait | PaneSettled (r : Settlement).

(** The holder with its editor, the shared field, and the closure state. *)
Record FormulaPane := mkFormulaPane {
  paneField : ViewFieldRec;
  paneEditor : NewBaseEditor;
  holderDisposed : bool;
  onSave : bool;
  onCancel : bool;
  saveEdit : option nat;            (* asyncOnce's cached promise *)
  panePromises : list PanePromise;
  paneLog : list Event
}.

Definition pane_log (l : list Event) (w : FormulaPane) : FormulaPane :=
  mkFormulaPane (paneField w) (paneEditor w) (holderDisposed w) (onSave w) (onCancel w)
    (saveEdit w) (panePromises w) (paneLog w ++ l).
Definition pane_saveEdit (v : option nat) (w : FormulaPane) : FormulaPane :=
  mkFormulaPane (paneField w) (paneEditor w) (holderDisposed w) (onSave w) (onCancel w)
    v (panePromises w) (paneLog w).
Definition pane_promises (ps : list PanePromise) (w : FormulaPane) : FormulaPane :=
  mkFormulaPane (paneField w) (paneEditor w) (holderDisposed w) (onSave w) (onCancel w)
    (saveEdit w) ps (paneLog w).
Definition pane_field (f : ViewFieldRec) (w : FormulaPane) : FormulaPane :=
  mkFormulaPane f (paneEditor w) (holderDisposed w) (onSave w) (onCancel w)
    (saveEdit w) (panePromises w) (paneLog w).
Definition pane_editor (e : NewBaseEditor) (w : FormulaPane) : FormulaPane :=
  mkFormulaPane (paneField w) e (holderDisposed w) (onSave w) (onCancel w)
    (saveEdit w) (panePromises w) (paneLog w).

(** [holder.dispose()]. *)
Definition pane_dispose (w : FormulaPane) : FormulaPane :=
  if holderDisposed w then w
  else mkFormulaPane (paneField w) (paneEditor w) true (onSave w) (onCancel w)
         (saveEdit w) (panePromises w) (paneLog w ++ [EvDisposeEditor; EvDispose]).

(** The closure given to [asyncOnce], up to its [await]: the promise state
    it leaves. *)
Definition pane_doSave_start (w : FormulaPane) : PanePromise * FormulaPane :=
  let formulaText := getCellValue (paneEditor w) in
  let col := column (paneField w) in
  if onSave w then
    (PaneAwait, pane_log [EvOnSave col formulaText] w)
  else if negb (strictEqStr formulaText (formula col)) then
    (PaneAwait, pane_log [EvColumnWrite (UpdateFormula formulaText)] w)
  else
    (PaneSettled Resolved, pane_dispose w).

Definition pane_doSave_call (w : FormulaPane) : nat * FormulaPane :=
  let (s, w') := pane_doSave_start w in
  (List.length (panePromises w'), pane_promises (panePromises w' ++ [s]) w').

(** [saveEdit = asyncOnce(async () => ...)]. *)
Definition pane_saveEdit_call : FormulaPane -> nat * FormulaPane :=
  asyncOnce saveEdit pane_saveEdit pane_doSave_call.

Inductive PaneAction :=
| PaneCallSave                            (* fieldEditSave, fieldEditSaveHere, click-away *)
| PaneSettle (p : nat) (r : Settlement)   (* the awaited callback or write settles *)
| PaneCancel                              (* fieldEditCancel *)
| PaneSetColumn (c : ColumnRec)
| PaneUserInput (v : EditorView).

Definition pane_step (a : PaneAction) (w : FormulaPane) : option nat * FormulaPane :=
  match a with
  | PaneCallSave => let (h, w') := pane_saveEdit_call w in (Some h, w')
  | PaneSettle p r =>
      match nth_error (panePromises w) p with
      | Some PaneAwait =>
          let w1 := pane_log [EvSettled r] w in
          match r with
          | Rejected => (None, pane_promises (setPromise p (PaneSettled Rejected) (panePromises w1)) w1)
          | Resolved =>
              let w2 := pane_dispose w1 in
              (None, pane_promises (setPromise p (PaneSettled Resolved) (panePromises w2)) w2)
          end
      | _ => (None, w)
      end
  | PaneCancel =>
      let w1 := pane_dispose w in
      (None, if onCancel w1 then pane_log [EvOnCancel] w1 else w1)
  | PaneSetColumn c => (None, pane_field (with_column c (paneField w)) w)
  | PaneUserInput v =>
      (None, pane_editor (mkEditor (ctor (paneEditor w)) (options (paneEditor w)) v) w)
  end.

Fixpoint pane_run (acts : list PaneAction) (w : FormulaPane) : list nat * FormulaPane :=
  match acts with
  | [] => ([], w)
  | a :: rest =>
      let (h, w1) := pane_step a w in
      let (hs, w2) := pane_run rest w1 in
      (match h with Some x => x :: hs | None => hs end, w2)
  end.

(** [openFormulaEditor(options)]: the pane right after opening. *)
Definition openFormulaEditor (FormulaEditor : IEditorConstructor) (o : PaneOptions)
  : FormulaPane :=
  let field := paneOptField o in
  let col := column field in
  let err := match paneOptEditRow o with
             | Some editRow => getFormulaError editRow col
             | None => (None, [])
             end in
  let editor := create FormulaEditor
    (mkEditorOptions (VStr (formula col)) (fst err) (paneOptEditValue o) PosInfinity None
       (EditCommands false) false) in
  let field' := if String.eqb (formula col) "" then with_editingFormula true field else field in
  mkFormulaPane field' editor false (paneOptOnSave o) (paneOptOnCancel o) None []
    (snd err ++ [EvAttach editor; EvCleanup false]).

(** ** Concrete documents and widgets, for running the model *)

Module Samples.

(** A text widget: shows the typed text, or the cell's text. *)
Definition textOfCell (v : CellValue) : string :=
  match v with VStr s => s | _ => "" end.

Definition textRender (o : EditorOptions) : EditorView :=
  let t := match editValue o with Some s => s | None => textOfCell (cellValue o) end in
  mkEditorView (VStr t) t
    (match cursorPos o with PosInfinity => Z.of_nat (String.length t) | PosAt n => n end)
    (Some t).

Definition TextEditor : IEditorConstructor := mkEditorCtor None textRender.
Definition FormulaEditor : IEditorConstructor := mkEditorCtor None textRender.

(** A check box: typing a space toggles the cell without an editor. *)
Definition toggleOnSpace (typedVal : option string) (origVal : CellValue) : option CellValue :=
  match typedVal with
  | Some " " => Some (VBool (negb (isEqual origVal (VBool true))))
  | _ => None
  end.

Definition CheckBoxEditor : IEditorConstructor := mkEditorCtor (Some toggleOnSpace) textRender.

Definition dataColumn : ColumnRec := mkColumnRec "A" false "" false false false "Text".
Definition emptyColumn : ColumnRec := mkColumnRec "A" true "" true false false "Any".
Definition formulaColumn : ColumnRec := mkColumnRec "A" true "$B + 1" false true false "Numeric".
Definition boolColumn : ColumnRec := mkColumnRec "A" false "" false false false "Bool".

Definition fieldOn (c : ColumnRec) : ViewFieldRec := mkViewFieldRec c "A" false 7 3.

(** A list cell holding a zero and a nested marker array. *)
Definition nestedMarker (negativeZero : bool) : CellValue :=
  VArr [VStr "L"; VNum (S754_zero negativeZero); VArr [VStr "d"; VNull; VBool true]].

Definition rowWith (v : CellValue) : DataRowModel :=
  mkDataRowModel (RowNum 5) (fun _ => v) false.

(** A cell of such a column: nothing yet under an empty column, a number
    under the formula, a text otherwise. *)
Definition cellOf (c : ColumnRec) : CellValue :=
  if isEmpty c then VNull
  else if isRealFormula c then VNum (S754_finite false 3 0)
  else VStr "old".

Definition optionsFor (c : ColumnRec) (typed : option string) (ro : bool) : Options :=
  mkOptions (fieldOn c) (mkCursor (Some 4%Z)) (rowWith (cellOf c)) TextEditor typed None ro.

Definition session (c : ColumnRec) (typed : option string) (ro : bool) : FieldEditor :=
  constructor FormulaEditor (optionsFor c typed ro).

(** A session in which the user's conversion to a formula is not yet saved:
    [=] typed on an empty column, then [abc]. *)
Definition typedFormula : FieldEditor :=
  snd (env_step FormulaEditor (UserInput (mkEditorView (VStr "abc") "abc" 0 (Some "abc")))
         (session emptyColumn (Some "=") false)).

(** A value editor left open on a column that has meanwhile become a real
    formula, the field not being in formula-editing mode. *)
Definition staleValueEdit : FieldEditor :=
  snd (env_step FormulaEditor (SetColumn formulaColumn)
         (session dataColumn (Some "new") false)).

Definition resorted : Schedule := mkSchedule [] Resolved [SetRowIndex (Some 9%Z)] Resolved.
Definition prepFails : Schedule := mkSchedule [] Rejected [] Resolved.
Definition writeFails : Schedule := mkSchedule [] Resolved [] Rejected.

Definition pane (c : ColumnRec) (withOnSave : bool) : FormulaPane :=
  openFormulaEditor FormulaEditor (mkPaneOptions (fieldOn c) None (Some "$B * 2") withOnSave false).

End Samples.

(** ** Vocabulary of the statements *)

(** The session edits a formula: the flag is set and the held editor is the
    formula editor. *)
Definition inFormulaMode (FormulaEditor : IEditorConstructor) (w : FieldEditor) : Prop :=
  _isFormula w = true /\ exists e, _editorHolder w = Some e /\ ctor e = FormulaEditor.

(** The session edits a value: the flag is unset and the held editor is the
    one the session was given. *)
Definition inValueMode (w : FieldEditor) : Prop :=
  _isFormula w = false /\ exists e, _editorHolder w = Some e /\ ctor e = _editorCtor w.

(** The text handed to the held editor for editing. *)
Definition editableText (w : FieldEditor) : option string :=
  match _editorHolder w with
  | Some e => editValue (options e)
  | None => None
  end.

(** The event of a holder giving up its editor, if it has one. *)
Definition holderEvents (h : option NewBaseEditor) : list Event :=
  match h with Some _ => [EvDisposeEditor] | None => [] end.

(** The session is disposed and holds no editor: its DOM anchor and command
    table are released. *)
Definition released (w : FieldEditor) : Prop :=
  isDisposed w = true /\ _editorHolder w = None.

(** A disposed session holds no editor. *)
Definition disposedReleases (w : FieldEditor) : Prop :=
  isDisposed w = true -> _editorHolder w = None.

(** An event issued by the save branch before the save event: a write sent
    to the document, or a console warning. *)
Definition warnOrWrite (e : Event) : Prop := writesDoc e = true \/ exists m, e = EvWarn m.

(** The session at the moment [prepForSave] settles, in a call of
    [_doSaveEdit] started on [w] under schedule [sch]. *)
Definition atResumption (FormulaEditor : IEditorConstructor) (sch : Schedule) (w : FieldEditor)
  : FieldEditor :=
  snd (env_run FormulaEditor (duringPrep sch) (snd (doSaveEdit_start w))).

(** "Every invocation of the save path on a live session disposes it",
    for one session and one schedule. *)
Definition saveAlwaysDisposes (FormulaEditor : IEditorConstructor) (sch : Schedule)
    (w : FieldEditor) : Prop :=
  isDisposed w = false -> released (snd (_doSaveEdit FormulaEditor sch w)).

(** Is this turn a call of the memoized save. *)
Definition isCall (a : Action) : bool :=
  match a with CallSaveEdit => true | _ => false end.

Definition isPaneCall (a : PaneAction) : bool :=
  match a with PaneCallSave => true | _ => false end.

(** The single-flight invariant of a session whose log held the document
    writes [base] when it was created: no call of [_doSaveEdit] yet; or one
    call, which has written at most once, and nothing while it is still
    suspended at [prepForSave]. *)
Definition singleFlight (base : list Event) (w : FieldEditor) : Prop :=
  (_saveEdit w = None /\ promises w = [] /\ docWrites (log w) = base) \/
  (_saveEdit w = Some 0%nat /\
   exists p ws, promises w = [p] /\ docWrites (log w) = base ++ ws /\
     (List.length ws <= 1)%nat /\
     match p with AwaitPrep _ _ => ws = [] | _ => True end).

(** The same for the stand-alone formula editor. *)
Definition paneSingleFlight (base : list Event) (w : FormulaPane) : Prop :=
  (saveEdit w = None /\ panePromises w = [] /\ docWrites (paneLog w) = base) \/
  (saveEdit w = Some 0%nat /\
   exists p ws, panePromises w = [p] /\ docWrites (paneLog w) = base ++ ws /\
     (List.length ws <= 1)%nat).

Definition stripLeadingEq (t : string) : string :=
  match t with
  | String "="%char rest => rest
  | _ => t
  end.

(** The formula-prefix table of session construction, for one set of
    constructor options. *)
Definition constructionTable (FormulaEditor : IEditorConstructor) (o : Options) : Prop :=
  let w := constructor FormulaEditor o in
  let col := column (optField o) in
  (isRealFormula col = true ->
     inFormulaMode FormulaEditor w /\
     editableText w = option_map stripLeadingEq (startVal o)) /\
  (forall rest, startVal o = Some (String "="%char rest) -> isEmpty col = true ->
     inFormulaMode FormulaEditor w /\ editableText w = Some rest) /\
  (forall rest, startVal o = Some (String "="%char rest) ->
     isEmpty col = false -> isRealFormula col = false ->
     inValueMode w /\ editableText w = Some (String "="%char rest) /\ In EvTooltip (log w)).

(** ** Counting lifecycle events *)

Definition isDisposeEditor (e : Event) : bool :=
  match e with EvDisposeEditor => true | _ => false end.

(** The two events that close an edit: save and cancel. *)
Definition isOutcome (e : Event) : bool :=
  match e with EvEmitSave _ | EvEmitCancel _ => true | _ => false end.

Definition isColumnWrite (e : Event) : bool :=
  match e with EvColumnWrite _ => true | _ => false end.

Definition isOnSave (e : Event) : bool :=
  match e with EvOnSave _ _ => true | _ => false end.

Definition countOf (f : Event -> bool) (l : list Event) : nat := List.length (filter f l).

(** Editors currently held: one or none. *)
Definition held (w : FieldEditor) : nat :=
  match _editorHolder w with Some _ => 1 | None => 0 end.

(** The lifecycle invariant of a session: it holds an editor exactly while
    it is live; every editor attached so far has been disposed, except the
    one held; at most one save or cancel event has been emitted, and none
    while the session is live. *)
Definition lifecycle (w : FieldEditor) : Prop :=
  (isDisposed w = true <-> _editorHolder w = None) /\
  countOf isAttach (log w) = (countOf isDisposeEditor (log w) + held w)%nat /\
  (countOf isOutcome (log w) <= 1)%nat /\
  (isDisposed w = false -> countOf isOutcome (log w) = 0%nat).

(** Is this turn of the pane a cancel. *)
Definition isPaneCancel (a : PaneAction) : bool :=
  match a with PaneCancel => true | _ => false end.

(** Further concrete sessions. *)
Module Scenarios.

(** An empty column opened by double-click (no typed text), the caret then
    at the start of ["abc"]. *)
Definition typedOnEmpty : FieldEditor :=
  snd (env_step Samples.FormulaEditor
         (UserInput (mkEditorView (VStr "abc") "abc" 0 (Some "abc")))
         (Samples.session Samples.emptyColumn None false)).

(** A formula column opened by double-click. *)
Definition openedFormula : FieldEditor :=
  Samples.session Samples.formulaColumn None false.

(** A session on a data column whose cell is censored by access rules. *)
Definition censoredCell : FieldEditor :=
  constructor Samples.FormulaEditor
    (mkOptions (Samples.fieldOn Samples.dataColumn) (mkCursor (Some 4%Z))
       (Samples.rowWith (VArr [VStr "C"])) Samples.TextEditor None None false).

End Scenarios.

(** What the stand-alone formula editor keeps: a save that succeeded has
    disposed the holder; unless cancelled, the holder is disposed only then;
    with [onSave] given the column is never written directly, and without
    it the callback is never called. *)
Definition paneClosing (cancelled : bool) (w : FormulaPane) : Prop :=
  (panePromises w = [PaneSettled Resolved] -> holderDisposed w = true) /\
  (cancelled = false -> holderDisposed w = true -> panePromises w = [PaneSettled Resolved]) /\
  (onSave w = true -> countOf isColumnWrite (paneLog w) = 0%nat) /\
  (onSave w = false -> countOf isOnSave (paneLog w) = 0%nat).

(** * Properties *)

(** ** Deep equality *)

(** Induction on cell values that reaches inside arrays. *)
Lemma CellValue_nested_ind (P : CellValue -> Prop) :
  P VNull ->
  (forall b, P (VBool b)) ->
  (forall x, P (VNum x)) ->
  (forall s, P (VStr s)) ->
  (forall items, Forall P items -> P (VArr items)) ->
  forall v, P v.
Proof.
  intros Hnull Hbool Hnum Hstr Harr.
  fix IH 1. intros [| b | x | s | items].
  - exact Hnull.
  - apply Hbool.
  - apply Hnum.
  - apply Hstr.
  - apply Harr. induction items as [| v rest IHrest].
    + constructor.
    + constructor; [apply IH | exact IHrest].
Qed.

Lemma isEqual_arrays xs ys : isEqual (VArr xs) (VArr ys) = equalArrays xs ys.
Proof.
  destruct xs, ys; reflexivity.
Qed.

Lemma numStrictEq_finite s1 m1 e1 s2 m2 e2 :
  numStrictEq (S754_finite s1 m1 e1) (S754_finite s2 m2 e2) = true <->
  s1 = s2 /\ m1 = m2 /\ e1 = e2.
Proof.
  unfold numStrictEq, SFeqb, SFcompare.
  change (Pos.compare_cont Eq m1 m2) with (Pos.compare m1 m2).
  destruct s1, s2; destruct (Z.compare_spec e1 e2); destruct (Pos.compare_spec m1 m2);
    simpl; split; intros Hyp; try discriminate;
    try (destruct Hyp as (? & ? & ?); subst; try lia; discriminate);
    subst; auto.
Qed.

Lemma numStrictEq_refl x : x <> S754_nan -> numStrictEq x x = true.
Proof.
  destruct x as [s | [] | | s m e]; intros N; try reflexivity.
  - contradiction.
  - apply numStrictEq_finite. auto.
Qed.

Lemma numStrictEq_sameNumber x y : numStrictEq x y = true -> sameNumber x y.
Proof.
  destruct x as [s | s | | s m e], y as [t | t | | t m' e'];
    try (intros Hyp; apply numStrictEq_finite in Hyp as (-> & -> & ->); constructor);
    unfold numStrictEq, SFeqb; simpl;
    repeat match goal with b : bool |- _ => destruct b end;
    intros Hyp; try discriminate; constructor.
Qed.

Lemma lodashEq_sameNumber x y : lodashEq x y = true <-> sameNumber x y.
Proof.
  unfold lodashEq. split.
  - intros Hyp. apply orb_true_iff in Hyp as [Hyp | Hyp].
    + apply numStrictEq_sameNumber. exact Hyp.
    + apply andb_true_iff in Hyp as [Hx Hy].
      destruct x as [s | s | | s m e];
        try (rewrite numStrictEq_refl in Hx by discriminate; discriminate).
      destruct y as [t | t | | t m' e'];
        try (rewrite numStrictEq_refl in Hy by discriminate; discriminate).
      constructor.
  - intros [| s t | s | s m e]; try reflexivity.
    + rewrite (numStrictEq_refl (S754_infinity s)) by discriminate. reflexivity.
    + rewrite (numStrictEq_refl (S754_finite s m e)) by discriminate. reflexivity.
Qed.

(** [isEqual] decides deep equality. *)
Lemma isEqual_deepEquals a : forall b, isEqual a b = true <-> deepEquals a b.
Proof.
  induction a as [| x | x | s | items IH] using CellValue_nested_ind; intros b.
  - destruct b; simpl; split; intros H; try discriminate; try constructor; inversion H.
  - destruct b as [| y | | |]; simpl; split; intros H; try discriminate; try (now inversion H).
    + apply Bool.eqb_prop in H. subst. constructor.
    + inversion H; subst. apply Bool.eqb_reflx.
  - destruct b as [| | y | |]; simpl; split; intros H; try discriminate; try (now inversion H).
    + constructor. apply lodashEq_sameNumber. exact H.
    + inversion H; subst. apply lodashEq_sameNumber. assumption.
  - destruct b as [| | | t |]; simpl; split; intros H; try discriminate; try (now inversion H).
    + apply String.eqb_eq in H. subst. constructor.
    + inversion H; subst. apply String.eqb_refl.
  - destruct b as [| | | | ys]; try (simpl; split; intros H; [discriminate | now inversion H]).
    rewrite isEqual_arrays.
    assert (A : equalArrays items ys = true <-> Forall2 deepEquals items ys).
    { revert ys. induction IH as [| x xs Hx Hxs IHxs]; intros [| y ys]; simpl.
      - split; [constructor | reflexivity].
      - split; [discriminate | intros F; inversion F].
      - split; [discriminate | intros F; inversion F].
      - rewrite andb_true_iff, Hx, IHxs. split.
        + intros [? ?]. constructor; assumption.
        + intros F. inversion F; subst. split; assumption. }
    rewrite A. split.
    + apply de_arr.
    + intros H. inversion H; subst. assumption.
Qed.

Lemma deepEquals_refl a : deepEquals a a.
Proof.
  induction a as [| x | x | s | items IH] using CellValue_nested_ind; try constructor.
  - destruct x; constructor.
  - induction IH; constructor; assumption.
Qed.

(** ** The equality-gated write and the fast-accept path *)

(** C8. [setAndSave] issues no write when the candidate value deep-equals the
    cell's current value, whatever its shape (scalar, array, nested marker
    array), and otherwise issues exactly one write, of the candidate. *)
Theorem setAndSave_writes_unless_deep_equal editRow field value :
  let current := cells editRow (fieldColId field) in
  (deepEquals value current ->
     setAndSave editRow field value = (PromiseDone, [])) /\
  (~ deepEquals value current ->
     setAndSave editRow field value =
       (PromisePending, [EvCellWrite (getRowId editRow) (fieldColId field) value])).
Proof.
  cbv zeta. unfold setAndSave.
  destruct (isEqual value (cells editRow (fieldColId field))) eqn:E; simpl; split; intros D.
  - reflexivity.
  - exfalso. apply D. apply isEqual_deepEquals. exact E.
  - apply isEqual_deepEquals in D. congruence.
  - reflexivity.
Qed.

Lemma setAndSave_writes_unless_deep_equal_witness :
  setAndSave (Samples.rowWith (Samples.nestedMarker false)) (Samples.fieldOn Samples.dataColumn)
    (Samples.nestedMarker true) = (PromiseDone, []) /\
  setAndSave (Samples.rowWith (Samples.nestedMarker false)) (Samples.fieldOn Samples.dataColumn)
    (VArr [VStr "L"; VNum (S754_zero false); VArr [VStr "d"; VNull; VBool false]]) =
    (PromisePending,
     [EvCellWrite (RowNum 5) "A"
        (VArr [VStr "L"; VNum (S754_zero false); VArr [VStr "d"; VNull; VBool false]])]).
Proof.
  split.
  - apply (proj1 (setAndSave_writes_unless_deep_equal
                    (Samples.rowWith (Samples.nestedMarker false))
                    (Samples.fieldOn Samples.dataColumn) (Samples.nestedMarker true))).
    apply isEqual_deepEquals. reflexivity.
  - apply (proj2 (setAndSave_writes_unless_deep_equal
                    (Samples.rowWith (Samples.nestedMarker false))
                    (Samples.fieldOn Samples.dataColumn)
                    (VArr [VStr "L"; VNum (S754_zero false); VArr [VStr "d"; VNull; VBool false]]))).
    intros D. apply isEqual_deepEquals in D. discriminate D.
Defined.

(** C9. [saveWithoutEditor] answers "handled" exactly when the column is not
    a real formula, the editor class declares [skipEditor], and that rule
    gives a defined value for the typed input and the prior cell value; it
    then does what [setAndSave] does with that value; otherwise it answers
    [false] and causes nothing; and in no case is an editor attached. *)
Theorem saveWithoutEditor_handled_iff editorCtor editRow field typedVal :
  let origVal := cells editRow (fieldColId field) in
  let r := saveWithoutEditor editorCtor editRow field typedVal in
  (fst r = true <->
     isRealFormula (column field) = false /\
     exists skip v, skipEditor editorCtor = Some skip /\ skip typedVal origVal = Some v) /\
  (forall skip v,
     isRealFormula (column field) = false ->
     skipEditor editorCtor = Some skip ->
     skip typedVal origVal = Some v ->
     r = (true, snd (setAndSave editRow field v))) /\
  (fst r = false -> snd r = []) /\
  Forall (fun e => isAttach e = false) (snd r).
Proof.
  cbv zeta. unfold saveWithoutEditor.
  destruct (isRealFormula (column field)) eqn:RF; simpl.
  - repeat split; try discriminate; try constructor.
    intros [? _]. discriminate.
  - destruct (skipEditor editorCtor) as [skip |] eqn:SK.
    + destruct (skip typedVal (cells editRow (fieldColId field))) as [v |] eqn:RV; simpl.
      * repeat split; try discriminate.
        -- exists skip, v. auto.
        -- intros skip' v' _ E1 E2. inversion E1; subst. congruence.
        -- unfold setAndSave.
           destruct (isEqual v (cells editRow (fieldColId field))); simpl;
             repeat constructor.
      * repeat split; try discriminate; try constructor.
        -- intros [_ (skip' & v' & E1 & E2)]. inversion E1; subst. congruence.
        -- intros skip' v' _ E1 E2. inversion E1; subst. congruence.
    + repeat split; try discriminate; try constructor.
      intros [_ (skip' & v' & E1 & _)]. discriminate.
Qed.

Lemma saveWithoutEditor_handled_iff_witness :
  saveWithoutEditor Samples.CheckBoxEditor (Samples.rowWith (VBool false))
    (Samples.fieldOn Samples.boolColumn) (Some " ") =
  (true, [EvCellWrite (RowNum 5) "A" (VBool true)]).
Proof.
  apply (proj1 (proj2 (saveWithoutEditor_handled_iff Samples.CheckBoxEditor
                         (Samples.rowWith (VBool false)) (Samples.fieldOn Samples.boolColumn)
                         (Some " ")))
           Samples.toggleOnSpace (VBool true)); reflexivity.
Defined.

(** ** Strings *)

Lemma substring_all t : String.substring 0 (String.length t) t = t.
Proof. induction t as [| c t IH]; simpl; [reflexivity | now rewrite IH]. Qed.

Lemma startsWith_eq_cons c rest : startsWith (String c rest) "=" = true <-> c = "="%char.
Proof.
  unfold startsWith. cbn [String.prefix].
  destruct (Ascii.ascii_dec "="%char c) as [E | N].
  - split; [auto | intros _; destruct rest; reflexivity].
  - split; [discriminate | intros ->; contradiction].
Qed.

Lemma removePrefix_eq rest : removePrefix (String "="%char rest) "=" = Some rest.
Proof.
  unfold removePrefix.
  rewrite (proj2 (startsWith_eq_cons "="%char rest) eq_refl).
  cbn [String.length String.substring Nat.sub]. rewrite Nat.sub_0_r, substring_all. reflexivity.
Qed.

Lemma stripLeadingEq_other t : startsWith t "=" = false -> stripLeadingEq t = t.
Proof.
  destruct t as [| c rest]; [reflexivity |].
  intros Hyp.
  assert (N : c <> "="%char).
  { intros E. apply (startsWith_eq_cons c rest) in E. congruence. }
  unfold stripLeadingEq.
  destruct c as [[] [] [] [] [] [] [] []]; try reflexivity. contradiction N. reflexivity.
Qed.

(** ** Running the methods *)

Ltac destruct_session w :=
  destruct w as [[col fcid ef cref vsid] cur row ector holder cache proms changed isf ro disp lg].

Ltac run_ops := cbv [bind ret gets modify emit when liftW]; cbn.

Lemma docWrites_app l1 l2 : docWrites (l1 ++ l2) = docWrites l1 ++ docWrites l2.
Proof. apply filter_app. Qed.

(** What does not change in a step: the promises and their cache, the
    cursor, the row, the constructor given, and the read-only flag. *)
Definition sameFrame (w w' : FieldEditor) : Prop :=
  _saveEdit w' = _saveEdit w /\ promises w' = promises w /\
  _cursor w' = _cursor w /\ _editRow w' = _editRow w /\
  _editorCtor w' = _editorCtor w /\ _readonly w' = _readonly w /\
  column (_field w') = column (_field w).

(** [rebuildEditor] installs a fresh editor made with the given text and
    caret, by the constructor the mode selects. *)
Lemma rebuildEditor_spec FE ev cp st w :
  let w' := snd (rebuildEditor FE ev cp st w) in
  exists e,
    _editorHolder w' = Some e /\
    ctor e = (if _isFormula w then FE else _editorCtor w) /\
    editValue (options e) = ev /\ cursorPos (options e) = cp /\ state (options e) = st /\
    readonly (options e) = _readonly w /\
    log w' = log w ++ snd (getFormulaError (_editRow w) (column (_field w))) ++
               holderEvents (_editorHolder w) ++ [EvAttach e] /\
    _isFormula w' = _isFormula w /\ isDisposed w' = isDisposed w /\
    _editorHasChanged w' = false /\
    editingFormula (_field w') =
      (if _readonly w then editingFormula (_field w)
       else _isFormula w && match ev with Some _ => true | None => false end) /\
    sameFrame w w'.
Proof.
  cbv zeta. destruct_session w. unfold rebuildEditor, sameFrame. run_ops.
  destruct ro, holder; cbn; rewrite <- ?app_assoc; cbn;
    (eexists; split; [reflexivity |]); cbn; repeat split.
Qed.

Lemma getFormulaError_events editRow col :
  Forall (fun e => e = EvFetchFormulaError) (snd (getFormulaError editRow col)).
Proof. unfold getFormulaError. destruct (_ && _); repeat constructor. Qed.

Lemma getFormulaError_docWrites editRow col :
  docWrites (snd (getFormulaError editRow col)) = [].
Proof. unfold getFormulaError. destruct (_ && _); reflexivity. Qed.

Lemma holderEvents_docWrites h : docWrites (holderEvents h) = [].
Proof. destruct h; reflexivity. Qed.

(** [_cancelEdit] on a live session, and on a disposed one. *)
Lemma cancelEdit_live w :
  isDisposed w = false ->
  let w' := snd (_cancelEdit w) in
  isDisposed w' = true /\ _editorHolder w' = None /\
  log w' = log w ++ [EvEmitCancel (stateEvent w)] ++ holderEvents (_editorHolder w) ++ [EvDispose] /\
  sameFrame w w'.
Proof.
  cbv zeta. destruct_session w. cbn. intros ->. unfold _cancelEdit, dispose, sameFrame. run_ops.
  destruct holder; cbn; rewrite <- ?app_assoc; repeat split.
Qed.

Lemma cancelEdit_disposed w : isDisposed w = true -> _cancelEdit w = (tt, w).
Proof. intros D. unfold _cancelEdit. run_ops. rewrite D. reflexivity. Qed.

Arguments startsWith : simpl never.
Arguments removePrefix : simpl never.
Arguments stripLeadingEq : simpl never.

Lemma not_in_getFormulaError editRow col e :
  e <> EvFetchFormulaError -> ~ In e (snd (getFormulaError editRow col)).
Proof.
  intros N I. pose proof (getFormulaError_events editRow col) as F.
  rewrite Forall_forall in F. apply F in I. contradiction.
Qed.

(** ** Construction *)

(** C2, as amended. For a session that is not read-only, construction
    follows the formula-prefix table: on a real formula column it starts in
    formula mode with a leading [=] of the typed text stripped; with typed
    text beginning with [=] on an empty column it starts in formula mode with
    the [=] stripped; with such text on a column that is neither empty nor a
    formula it stays in value mode, keeps the text with its [=], and shows
    the convert-to-formula tooltip. *)
Theorem constructor_formula_prefix_table FE o :
  optReadonly o = false -> constructionTable FE o.
Proof.
  intros RO. destruct o as [f c r ec sv st ro]. cbn in RO. subst ro.
  unfold constructionTable, inFormulaMode, inValueMode, editableText.
  cbn [optField startVal]. split; [| split].
  - intros RF. unfold constructor, constructorBody. run_ops. rewrite RF. cbn.
    destruct sv as [[| ch rest] |]; cbn; eauto.
    destruct (startsWith (String ch rest) "=") eqn:SW; cbn.
    + apply startsWith_eq_cons in SW. subst ch. rewrite removePrefix_eq. eauto.
    + rewrite stripLeadingEq_other by exact SW. eauto.
  - intros rest -> EM. unfold constructor, constructorBody. run_ops.
    rewrite (proj2 (startsWith_eq_cons "="%char rest) eq_refl), EM, orb_true_r. cbn.
    rewrite removePrefix_eq. eauto.
  - intros rest -> EM RF. unfold constructor, constructorBody. run_ops.
    rewrite (proj2 (startsWith_eq_cons "="%char rest) eq_refl), EM, RF. cbn.
    repeat split; eauto.
    rewrite !in_app_iff. cbn. tauto.
Qed.

Lemma constructor_formula_prefix_table_witness :
  let w := Samples.session Samples.dataColumn (Some "=foo") false in
  inValueMode w /\ editableText w = Some "=foo" /\ In EvTooltip (log w).
Proof.
  exact (proj2 (proj2 (constructor_formula_prefix_table Samples.FormulaEditor
                         (Samples.optionsFor Samples.dataColumn (Some "=foo") false) eq_refl))
           "foo" eq_refl eq_refl eq_refl).
Defined.

(** The table as the claim states it, for every session, fails on a
    read-only one: ["=foo"] typed on an empty column leaves the session in
    value mode with the text ["=foo"]. *)
Lemma constructor_formula_prefix_table_readonly_counterexample :
  ~ constructionTable Samples.FormulaEditor
      (Samples.optionsFor Samples.emptyColumn (Some "=foo") true).
Proof.
  intros (_ & T & _).
  destruct (T "foo" eq_refl eq_refl) as [[F _] _].
  vm_compute in F. discriminate F.
Qed.

(** C10. A read-only session constructed with typed text beginning with [=]
    on a column that is not a real formula stays in value mode, keeps the
    text with its [=], shows no convert-to-formula tooltip, and leaves the
    field's formula-editing flag as it was. *)
Theorem constructor_readonly_keeps_prefix FE o t :
  optReadonly o = true ->
  startVal o = Some t ->
  startsWith t "=" = true ->
  isRealFormula (column (optField o)) = false ->
  let w := constructor FE o in
  inValueMode w /\ editableText w = Some t /\ ~ In EvTooltip (log w) /\
  editingFormula (_field w) = editingFormula (optField o).
Proof.
  intros RO SV _ RF. cbv zeta.
  destruct o as [f c r ec sv st ro]. cbn in RO, SV, RF. subst ro sv.
  unfold constructor, constructorBody, inValueMode, editableText. run_ops. rewrite RF. cbn.
  repeat split; eauto.
  intros I. repeat (apply in_app_or in I; destruct I as [I | I]);
    try (cbn in I; intuition discriminate).
  revert I. apply not_in_getFormulaError. discriminate.
Qed.

Lemma constructor_readonly_keeps_prefix_witness :
  let w := Samples.session Samples.emptyColumn (Some "=foo") true in
  inValueMode w /\ editableText w = Some "=foo" /\ ~ In EvTooltip (log w) /\
  editingFormula (_field w) = false.
Proof.
  exact (constructor_readonly_keeps_prefix Samples.FormulaEditor
           (Samples.optionsFor Samples.emptyColumn (Some "=foo") true) "=foo"
           eq_refl eq_refl eq_refl eq_refl).
Defined.

(** ** Leaving formula mode *)

(** C6. [_unmakeFormula] acts only when an editor is held, the field is in
    formula-editing mode, the caret is at 0 and the column is not a real
    formula: it then returns [false] (propagation stops), the session is in
    value mode, and the new editor is given the old text with [=] in front
    and the caret at 1.  In every other case it returns [true] and the
    session is exactly as before. *)
Theorem unmakeFormula_guard FE w :
  let r := _unmakeFormula FE w in
  (forall editor,
     _editorHolder w = Some editor ->
     editingFormula (_field w) = true ->
     getCursorPos editor = 0%Z ->
     isRealFormula (column (_field w)) = false ->
     fst r = false /\
     inValueMode (snd r) /\
     editableText (snd r) = Some (String "="%char (getTextValue editor)) /\
     (exists e, _editorHolder (snd r) = Some e /\ cursorPos (options e) = PosAt 1) /\
     (_readonly w = false -> editingFormula (_field (snd r)) = false)) /\
  ((_editorHolder w = None \/
    editingFormula (_field w) = false \/
    (exists editor, _editorHolder w = Some editor /\ getCursorPos editor <> 0%Z) \/
    isRealFormula (column (_field w)) = true) ->
   r = (true, w)).
Proof.
  cbv zeta. split.
  - intros editor H EF CP RF.
    destruct_session w. cbn in H, EF, RF. subst holder ef.
    unfold _unmakeFormula, inValueMode, editableText. run_ops. rewrite CP, RF. cbn.
    unfold rebuildEditor. run_ops.
    destruct ro; cbn; repeat split; eauto; discriminate.
  - intros C. unfold _unmakeFormula. run_ops.
    destruct (_editorHolder w) as [editor |] eqn:H; [| reflexivity].
    destruct C as [C | [C | [(ed & E & C) | C]]].
    + discriminate.
    + rewrite C. reflexivity.
    + inversion E; subst ed. apply Z.eqb_neq in C. rewrite C, andb_false_r. reflexivity.
    + rewrite C, andb_false_r. reflexivity.
Qed.

(** In the command table the method runs for editable sessions only: the
    read-only table answers "propagate" and touches nothing. *)
Remark runCommand_unmakeFormula FE w :
  runCommand FE unmakeFormula w =
    if _readonly w then (Some true, w)
    else (Some (fst (_unmakeFormula FE w)), snd (_unmakeFormula FE w)).
Proof.
  unfold runCommand, bind, gets, ret.
  destruct (_readonly w); [reflexivity |].
  destruct (_unmakeFormula FE w); reflexivity.
Qed.

Lemma unmakeFormula_guard_witness :
  let r := _unmakeFormula Samples.FormulaEditor Samples.typedFormula in
  fst r = false /\ inValueMode (snd r) /\ editableText (snd r) = Some "=abc" /\
  (exists e, _editorHolder (snd r) = Some e /\ cursorPos (options e) = PosAt 1) /\
  (false = false -> editingFormula (_field (snd r)) = false).
Proof.
  exact (proj1 (unmakeFormula_guard Samples.FormulaEditor Samples.typedFormula)
           (mkEditor Samples.FormulaEditor
              (mkEditorOptions (VStr "") None (Some "") PosInfinity None (EditCommands false) false)
              (mkEditorView (VStr "abc") "abc" 0 (Some "abc")))
           eq_refl eq_refl eq_refl eq_refl).
Defined.

(** ** The environment and the save path *)

Arguments create : simpl never.
Ltac hide_editors :=
  repeat match goal with
         | |- context [create ?c ?o] =>
             let e := fresh "made" in generalize (create c o); intro e
         end.
Ltac break_branch :=
  match goal with
  | |- context [match ?x with Some _ => _ | None => _ end] => destruct x eqn:?
  | |- context [if ?c then _ else _] => destruct c eqn:?
  end.
Ltac docWrites_norm :=
  rewrite ?docWrites_app, ?getFormulaError_docWrites; cbn; rewrite ?app_nil_r.

Lemma env_step_frame FE a w :
  let w' := snd (env_step FE a w) in
  _saveEdit w' = _saveEdit w /\ promises w' = promises w /\
  docWrites (log w') = docWrites (log w) /\
  (released w -> released w' /\ log w' = log w) /\
  (disposedReleases w -> disposedReleases w').
Proof.
  cbv zeta. destruct_session w. unfold released, disposedReleases.
  destruct a;
    unfold env_step, _cancelEdit, _makeFormula, _unmakeFormula, _convertEditorToFormula,
      _offerToMakeFormula, onEditorStateChange, dispose, rebuildEditor; run_ops.
  all: hide_editors; repeat (break_branch; cbn).
  all: docWrites_norm.
  all: repeat split; intros; subst; try tauto; try congruence; try reflexivity.
  all: try (intuition congruence).
Qed.

Lemma doSaveEdit_start_spec w editor :
  _editorHolder w = Some editor ->
  doSaveEdit_start w =
    (inr (editor, rowIndex (_cursor w)), with_log (log w ++ [EvPrepForSave]) w).
Proof. intros H. unfold doSaveEdit_start. run_ops. rewrite H. reflexivity. Qed.

Lemma doSaveEdit_afterPrep_disposed editor w :
  isDisposed w = true ->
  doSaveEdit_afterPrep editor w =
    (inl false, with_log (log w ++ [EvWarn "Unable to finish saving edited cell"]) w).
Proof. intros D. unfold doSaveEdit_afterPrep. run_ops. rewrite D. reflexivity. Qed.

Lemma doSaveEdit_afterPrep_live editor w :
  isDisposed w = false ->
  exists waitPromise issued w',
    doSaveEdit_afterPrep editor w = (inr (editingFormula (_field w), waitPromise), w') /\
    log w' = log w ++ issued ++ [EvEmitSave (stateEvent w)] ++
               holderEvents (_editorHolder w) ++ [EvDispose] /\
    released w' /\ sameFrame w w' /\
    Forall warnOrWrite issued /\ (List.length (docWrites issued) <= 1)%nat /\
    (editingFormula (_field w) = false -> isRealFormula (column (_field w)) = true ->
       waitPromise = None /\
       issued = [EvWarn "It should be impossible to save a plain data value into a formula column"]).
Proof.
  destruct_session w. cbn. intros ->.
  unfold doSaveEdit_afterPrep, dispose, setAndSave, released, sameFrame, warnOrWrite. run_ops.
  repeat (break_branch; cbn); rewrite <- ?app_assoc; cbn.
  all: eexists;
    first [ exists (@nil Event); eexists; (split; [reflexivity |]); cbn; (split; [reflexivity |])
          | eexists [_]; eexists; (split; [reflexivity |]); cbn; (split; [reflexivity |]) ].
  all: repeat split; try reflexivity; try discriminate; try (cbn; lia);
    try (intros; congruence);
    repeat (apply Forall_cons || apply Forall_nil);
    first [left; reflexivity | right; eexists; reflexivity].
Qed.

Lemma env_run_frame FE acts : forall w,
  let w' := snd (env_run FE acts w) in
  _saveEdit w' = _saveEdit w /\ promises w' = promises w /\
  docWrites (log w') = docWrites (log w) /\
  (released w -> released w' /\ log w' = log w) /\
  (disposedReleases w -> disposedReleases w').
Proof.
  induction acts as [| a rest IH]; intros w; cbn.
  - unfold ret, released. cbn. intuition.
  - unfold bind. destruct (env_step FE a w) as [[] w1] eqn:S1.
    pose proof (env_step_frame FE a w) as F. rewrite S1 in F. cbn in F.
    destruct F as (F1 & F2 & F3 & F4 & F5).
    specialize (IH w1). cbn in IH. destruct IH as (I1 & I2 & I3 & I4 & I5).
    split; [congruence |]. split; [congruence |]. split; [congruence |]. split.
    + intros R. destruct (F4 R) as [R1 L1]. destruct (I4 R1) as [R2 L2].
      split; [assumption | congruence].
    + auto.
Qed.

Lemma doSaveEdit_completes FE sch w editor :
  _editorHolder w = Some editor ->
  prepSettles sch = Resolved ->
  let wp := atResumption FE sch w in
  isDisposed wp = false ->
  exists (waitPromise : option Promise) issued settled outcome w',
    _doSaveEdit FE sch w = (outcome, w') /\
    log w' = log wp ++ issued ++ [EvEmitSave (stateEvent wp)] ++
               holderEvents (_editorHolder wp) ++ [EvDispose] ++ settled /\
    released w' /\
    Forall warnOrWrite issued /\ (List.length (docWrites issued) <= 1)%nat /\
    (settled = [] \/ settled = [EvSettled (writeSettles sch)]) /\
    (outcome = Threw \/
     outcome = Fulfilled (editingFormula (_field wp) ||
                          negb (indexEq (rowIndex (_cursor w)) (rowIndex (_cursor w'))))) /\
    (waitPromise = None -> outcome <> Threw /\ settled = []) /\
    (writeSettles sch = Resolved -> outcome <> Threw) /\
    (editingFormula (_field wp) = false -> isRealFormula (column (_field wp)) = true ->
       waitPromise = None /\
       issued = [EvWarn "It should be impossible to save a plain data value into a formula column"]).
Proof.
  intros H PS wp Live. subst wp. unfold atResumption in *.
  unfold _doSaveEdit, bind. rewrite (doSaveEdit_start_spec w editor H) in *. cbn [snd] in *.
  destruct (env_run FE (duringPrep sch) (with_log (log w ++ [EvPrepForSave]) w))
    as [[] wp] eqn:E1. cbn [snd] in *.
  rewrite PS.
  destruct (doSaveEdit_afterPrep_live editor wp Live)
    as (waitPromise & issued & w3 & E2 & L3 & R3 & F3 & W3 & N3 & G3).
  rewrite E2.
  pose proof (env_run_frame FE (duringWrite sch) w3) as F4.
  destruct (env_run FE (duringWrite sch) w3) as [[] w4] eqn:E4. cbn in F4.
  destruct F4 as (_ & _ & _ & F4 & _). destruct (F4 R3) as [R4 L4].
  exists waitPromise, issued.
  unfold awaitWrite, doSaveEdit_finish. run_ops.
  destruct waitPromise as [[] |]; [| destruct (writeSettles sch) eqn:WS |].
  all: cbn; do 3 eexists; (split; [reflexivity |]); cbn.
  all: rewrite ?L4, ?L3, <- ?app_assoc; cbn; rewrite <- ?app_assoc.
  all: (split; [reflexivity |]).
  all: repeat match goal with |- _ /\ _ => split end; auto;
    try discriminate; try (right; reflexivity); try (left; reflexivity);
    try (intros; split; [discriminate | reflexivity]); try (intros; discriminate);
    unfold released in *; cbn; try tauto.
Qed.

Lemma indexEq_eq a b : indexEq a b = true <-> a = b.
Proof.
  destruct a as [x |], b as [y |]; simpl; split; intros Hyp;
    try discriminate; try reflexivity.
  - apply Z.eqb_eq in Hyp. congruence.
  - inversion Hyp. apply Z.eqb_refl.
Qed.

(** ** The save protocol *)

(** C1. A call of [_doSaveEdit] that runs to completion (an editor is held,
    [prepForSave] resolves, the session is still live then, and the call is
    fulfilled) returns [true] exactly when the save was a formula save (the
    field was in formula-editing mode when the save resumed) or the cursor's
    row index at the start differs from the one after the awaited write. *)
Theorem doSaveEdit_flag FE sch w editor b w' :
  _editorHolder w = Some editor ->
  prepSettles sch = Resolved ->
  isDisposed (atResumption FE sch w) = false ->
  _doSaveEdit FE sch w = (Fulfilled b, w') ->
  (b = true <->
   editingFormula (_field (atResumption FE sch w)) = true \/
   rowIndex (_cursor w) <> rowIndex (_cursor w')).
Proof.
  intros H PS Live Run.
  destruct (doSaveEdit_completes FE sch w editor H PS Live)
    as (wp & issued & settled & outcome & w1 & E & _ & _ & _ & _ & _ & O & _).
  rewrite Run in E. inversion E; subst outcome w1. clear E.
  destruct O as [O | O]; [discriminate |]. injection O as B.
  rewrite B at 1. rewrite orb_true_iff, negb_true_iff.
  split; intros [F | I]; auto; right.
  - intros Same. apply indexEq_eq in Same. congruence.
  - destruct (indexEq (rowIndex (_cursor w)) (rowIndex (_cursor w'))) eqn:Q; [| reflexivity].
    apply indexEq_eq in Q. contradiction.
Qed.

Lemma doSaveEdit_flag_witness :
  let w := Samples.session Samples.dataColumn (Some "new") false in
  let w' := snd (_doSaveEdit Samples.FormulaEditor Samples.resorted w) in
  true = true <->
  editingFormula (_field (atResumption Samples.FormulaEditor Samples.resorted w)) = true \/
  rowIndex (_cursor w) <> rowIndex (_cursor w').
Proof.
  cbv zeta.
  eapply (doSaveEdit_flag Samples.FormulaEditor Samples.resorted
            (Samples.session Samples.dataColumn (Some "new") false)).
  - reflexivity.
  - reflexivity.
  - vm_compute; reflexivity.
  - vm_compute; reflexivity.
Defined.

(** C4. When [_doSaveEdit] reaches [await waitPromise], the save event has
    been emitted and the session disposed, in this order, after the writes
    were issued; in a whole call the settlement of the awaited write comes
    after both.  [_cancelEdit] on a live session emits the cancel event and
    then disposes. *)
Theorem notify_and_dispose_before_settling FE :
  (forall editor w suspended w',
     doSaveEdit_afterPrep editor w = (inr suspended, w') ->
     exists issued,
       log w' = log w ++ issued ++ [EvEmitSave (stateEvent w)] ++
                  holderEvents (_editorHolder w) ++ [EvDispose] /\
       Forall warnOrWrite issued /\ released w') /\
  (forall sch w editor,
     _editorHolder w = Some editor ->
     prepSettles sch = Resolved ->
     isDisposed (atResumption FE sch w) = false ->
     exists issued settled,
       log (snd (_doSaveEdit FE sch w)) =
         log (atResumption FE sch w) ++ issued ++
           [EvEmitSave (stateEvent (atResumption FE sch w))] ++
           holderEvents (_editorHolder (atResumption FE sch w)) ++ [EvDispose] ++ settled /\
       Forall warnOrWrite issued /\
       (settled = [] \/ settled = [EvSettled (writeSettles sch)])) /\
  (forall w,
     isDisposed w = false ->
     log (snd (_cancelEdit w)) =
       log w ++ [EvEmitCancel (stateEvent w)] ++ holderEvents (_editorHolder w) ++ [EvDispose] /\
     released (snd (_cancelEdit w))).
Proof.
  split; [| split].
  - intros editor w suspended w' Run.
    destruct (isDisposed w) eqn:D.
    + rewrite (doSaveEdit_afterPrep_disposed editor w D) in Run. discriminate.
    + destruct (doSaveEdit_afterPrep_live editor w D)
        as (wp & issued & w1 & E & L & R & _ & W & _).
      rewrite Run in E. inversion E; subst. eauto.
  - intros sch w editor H PS Live.
    destruct (doSaveEdit_completes FE sch w editor H PS Live)
      as (wp & issued & settled & outcome & w1 & E & L & _ & W & _ & S & _).
    rewrite E. cbn [snd]. eauto.
  - intros w D. destruct (cancelEdit_live w D) as (D' & H' & L & _).
    unfold released. auto.
Qed.


Lemma notify_and_dispose_before_settling_witness :
  let w := Samples.session Samples.dataColumn (Some "new") false in
  (exists issued settled,
     log (snd (_doSaveEdit Samples.FormulaEditor Samples.writeFails w)) =
       log (atResumption Samples.FormulaEditor Samples.writeFails w) ++ issued ++
         [EvEmitSave (stateEvent (atResumption Samples.FormulaEditor Samples.writeFails w))] ++
         holderEvents (_editorHolder (atResumption Samples.FormulaEditor Samples.writeFails w)) ++
         [EvDispose] ++ settled /\
     Forall warnOrWrite issued /\
     (settled = [] \/ settled = [EvSettled Rejected])) /\
  released (snd (_cancelEdit w)).
Proof.
  cbv zeta. split.
  - eapply (proj1 (proj2 (notify_and_dispose_before_settling Samples.FormulaEditor))
              Samples.writeFails (Samples.session Samples.dataColumn (Some "new") false)).
    + reflexivity.
    + reflexivity.
    + vm_compute; reflexivity.
  - apply (proj2 (proj2 (notify_and_dispose_before_settling Samples.FormulaEditor))
             (Samples.session Samples.dataColumn (Some "new") false)).
    vm_compute; reflexivity.
Defined.

(** C7. A value-mode save on a column that is a real formula persists
    nothing: the call logs the warning, emits the save event, disposes the
    session, and is fulfilled, whatever the document would have answered. *)
Theorem doSaveEdit_value_into_formula_column FE sch w editor :
  _editorHolder w = Some editor ->
  prepSettles sch = Resolved ->
  isDisposed (atResumption FE sch w) = false ->
  editingFormula (_field (atResumption FE sch w)) = false ->
  isRealFormula (column (_field (atResumption FE sch w))) = true ->
  exists b w',
    _doSaveEdit FE sch w = (Fulfilled b, w') /\
    log w' = log (atResumption FE sch w) ++
      [EvWarn "It should be impossible to save a plain data value into a formula column";
       EvEmitSave (stateEvent (atResumption FE sch w))] ++
      holderEvents (_editorHolder (atResumption FE sch w)) ++ [EvDispose] /\
    docWrites (log w') = docWrites (log w) /\
    released w'.
Proof.
  intros H PS Live EF RF.
  destruct (doSaveEdit_completes FE sch w editor H PS Live)
    as (wp & issued & settled & outcome & w1 & E & L & R & _ & _ & _ & O & N & _ & G).
  destruct (G EF RF) as [-> ->]. destruct (N eq_refl) as [NT ->].
  destruct O as [O | O]; [contradiction |]. subst outcome.
  eexists. exists w1. split; [exact E |]. split; [| split; [| exact R]].
  - rewrite L. cbn. rewrite ?app_nil_r. reflexivity.
  - rewrite L, !docWrites_app, holderEvents_docWrites. cbn. rewrite !app_nil_r.
    unfold atResumption. rewrite (doSaveEdit_start_spec w editor H). cbn [snd].
    destruct (env_run_frame FE (duringPrep sch) (with_log (log w ++ [EvPrepForSave]) w))
      as (_ & _ & D & _).
    rewrite D. cbn. rewrite docWrites_app. cbn. now rewrite app_nil_r.
Qed.

Lemma doSaveEdit_value_into_formula_column_witness :
  exists b w',
    _doSaveEdit Samples.FormulaEditor Samples.writeFails Samples.staleValueEdit =
      (Fulfilled b, w') /\
    log w' = log (atResumption Samples.FormulaEditor Samples.writeFails Samples.staleValueEdit) ++
      [EvWarn "It should be impossible to save a plain data value into a formula column";
       EvEmitSave (stateEvent
                     (atResumption Samples.FormulaEditor Samples.writeFails Samples.staleValueEdit))] ++
      holderEvents
        (_editorHolder (atResumption Samples.FormulaEditor Samples.writeFails Samples.staleValueEdit)) ++
      [EvDispose] /\
    docWrites (log w') = docWrites (log Samples.staleValueEdit) /\
    released w'.
Proof.
  eapply (doSaveEdit_value_into_formula_column Samples.FormulaEditor Samples.writeFails
            Samples.staleValueEdit).
  - reflexivity.
  - reflexivity.
  - vm_compute; reflexivity.
  - vm_compute; reflexivity.
  - vm_compute; reflexivity.
Defined.

(** C5, as amended. On a live session that holds an editor, a call of
    [_doSaveEdit] whose [prepForSave] resolves leaves the session disposed
    and without editor, whether or not a write was needed and however the
    write settles; a call whose [prepForSave] rejects is rejected and
    leaves the session as it was when the rejection arrived. *)
Theorem doSaveEdit_disposes_once_prepared FE sch w editor :
  isDisposed w = false ->
  _editorHolder w = Some editor ->
  (prepSettles sch = Resolved -> released (snd (_doSaveEdit FE sch w))) /\
  (prepSettles sch = Rejected ->
     _doSaveEdit FE sch w = (Threw, atResumption FE sch w)).
Proof.
  intros D H. split; intros PS.
  - destruct (isDisposed (atResumption FE sch w)) eqn:Live.
    + pose proof Live as Live'. unfold atResumption in Live.
      unfold _doSaveEdit, bind.
      rewrite (doSaveEdit_start_spec w editor H) in *. cbn [snd] in *.
      destruct (env_run_frame FE (duringPrep sch) (with_log (log w ++ [EvPrepForSave]) w))
        as (_ & _ & _ & _ & K).
      destruct (env_run FE (duringPrep sch) (with_log (log w ++ [EvPrepForSave]) w))
        as [[] wp] eqn:E1. cbn [snd] in *.
      rewrite PS, (doSaveEdit_afterPrep_disposed editor wp Live). cbn.
      split; cbn; [assumption |].
      apply K; [| assumption]. unfold disposedReleases. cbn. congruence.
    + destruct (doSaveEdit_completes FE sch w editor H PS Live)
        as (wp & issued & settled & outcome & w1 & E & _ & R & _).
      rewrite E. exact R.
  - unfold atResumption, _doSaveEdit, bind.
    rewrite (doSaveEdit_start_spec w editor H). cbn [snd].
    destruct (env_run FE (duringPrep sch) (with_log (log w ++ [EvPrepForSave]) w))
      as [[] wp] eqn:E1.
    rewrite PS. reflexivity.
Qed.

Lemma doSaveEdit_disposes_once_prepared_witness :
  released (snd (_doSaveEdit Samples.FormulaEditor Samples.writeFails
                   (Samples.session Samples.dataColumn (Some "new") false))).
Proof.
  refine (proj1 (doSaveEdit_disposes_once_prepared Samples.FormulaEditor Samples.writeFails
                   (Samples.session Samples.dataColumn (Some "new") false) _ _ _) _).
  - vm_compute; reflexivity.
  - reflexivity.
  - reflexivity.
Defined.

(** The claim as stated fails when [prepForSave] rejects: the call is
    rejected before it reaches [dispose], and the session stays live with
    its editor attached. *)
Lemma saveAlwaysDisposes_counterexample :
  ~ saveAlwaysDisposes Samples.FormulaEditor Samples.prepFails
      (Samples.session Samples.dataColumn (Some "new") false).
Proof.
  intros Claim. destruct (Claim eq_refl) as [Disposed _].
  vm_compute in Disposed. discriminate Disposed.
Qed.

(** ** Single-flight save *)

Lemma saveEdit_call_singleFlight base w :
  singleFlight base w ->
  fst (saveEdit_call w) = 0%nat /\
  singleFlight base (snd (saveEdit_call w)) /\
  _saveEdit (snd (saveEdit_call w)) = Some 0%nat.
Proof.
  unfold singleFlight. destruct_session w. cbn.
  intros [(C & P & L) | (C & p & ws & P & L & N & A)]; subst.
  - unfold saveEdit_call, asyncOnce, doSaveEdit_call, doSaveEdit_start. run_ops.
    destruct holder as [editor |]; cbn.
    + split; [reflexivity |]. split; [| reflexivity]. right. split; [reflexivity |].
      do 2 eexists. split; [reflexivity |]. rewrite docWrites_app. cbn.
      split; [reflexivity |]. split; [cbn; lia | reflexivity].
    + split; [reflexivity |]. split; [| reflexivity]. right. split; [reflexivity |].
      exists (Settled (Fulfilled false)), []. rewrite app_nil_r. cbn. auto.
  - unfold saveEdit_call, asyncOnce. cbn.
    split; [reflexivity |]. split; [| reflexivity]. right. eauto 10.
Qed.

Arguments doSaveEdit_afterPrep : simpl never.

Ltac fold_docWrites :=
  repeat match goal with
         | |- context [filter writesDoc ?l] => change (filter writesDoc l) with (docWrites l)
         end.

Lemma step_singleFlight FE base a w :
  singleFlight base w ->
  singleFlight base (snd (step FE a w)) /\
  fst (step FE a w) = (if isCall a then Some 0%nat else None) /\
  (_saveEdit (snd (step FE a w)) =
     if isCall a then Some 0%nat else _saveEdit w).
Proof.
  intros Inv. destruct a as [| p r | p r | e]; [| unfold singleFlight in *..].
  - destruct (saveEdit_call_singleFlight base w Inv) as (H1 & H2 & H3).
    unfold step, bind, ret. destruct (saveEdit_call w) as [h w1]. cbn in *. subst h. auto.
  - (* prepForSave settles *)
    unfold step. run_ops.
    destruct Inv as [(C & P & L) | (C & q & ws & P & L & N & A)].
    + rewrite P. destruct p; cbn; (split; [left; auto | auto]).
    + rewrite P. destruct p as [| p]; cbn; [| destruct p; cbn; solve [split; [right; eauto 10 | auto]]].
      destruct q as [editor saveIndex | |]; cbn; try solve [split; [right; eauto 10 | auto]].
      subst ws. rewrite app_nil_r in L.
      destruct r; cbn.
      * destruct (isDisposed w) eqn:D.
        -- rewrite (doSaveEdit_afterPrep_disposed editor w D). cbn. rewrite P. cbn.
           split; [| auto]. right. split; [assumption |].
           exists (Settled (Fulfilled false)), []. cbn. fold_docWrites.
           rewrite docWrites_app, L. cbn. rewrite app_nil_r. auto.
        -- destruct (doSaveEdit_afterPrep_live editor w D)
             as (wp & issued & w1 & E & L1 & R1 & F1 & W1 & N1 & _).
           rewrite E. cbn.
           destruct F1 as (F1 & F2 & _). rewrite F2, P. cbn.
           split; [| rewrite F1; auto]. right. split; [congruence |].
           exists (AwaitWrite (editingFormula (_field w)) saveIndex wp), (docWrites issued).
           split; [reflexivity |].
           fold_docWrites.
           rewrite L1, !docWrites_app, holderEvents_docWrites, L. cbn.
           rewrite app_nil_r. auto.
      * rewrite P. cbn. split; [| auto]. right. split; [assumption |].
        exists (Settled Threw), []. fold_docWrites. rewrite L, app_nil_r. cbn. auto.
  - (* the awaited write settles *)
    unfold step. run_ops.
    destruct Inv as [(C & P & L) | (C & q & ws & P & L & N & A)].
    + rewrite P. destruct p; cbn; (split; [left; auto | auto]).
    + rewrite P. destruct p as [| p]; cbn; [| destruct p; cbn; solve [split; [right; eauto 10 | auto]]].
      destruct q as [| isF saveIndex waitPromise |]; cbn; try solve [split; [right; eauto 10 | auto]].
      unfold awaitWrite, doSaveEdit_finish. run_ops.
      destruct waitPromise as [[] |]; [| destruct r |]; cbn; rewrite P; cbn;
        (split; [| auto]); right; (split; [assumption |]);
        eexists; exists ws; (split; [reflexivity |]); fold_docWrites;
        rewrite ?docWrites_app; cbn; rewrite ?app_nil_r; auto.
  - unfold step, bind, ret.
    pose proof (env_step_frame FE e w) as F.
    destruct (env_step FE e w) as [[] w1]. cbn in *.
    destruct F as (F1 & F2 & F3 & _).
    split; [| auto].
    destruct Inv as [(C & P & L) | (C & q & ws & P & L & N & A)].
    + left. rewrite F1, F2, F3. auto.
    + right. rewrite F1, F2, F3. eauto 10.
Qed.
Lemma run_singleFlight FE base acts : forall w,
  singleFlight base w ->
  singleFlight base (snd (run FE acts w)) /\
  Forall (fun h => h = 0%nat) (fst (run FE acts w)) /\
  _saveEdit (snd (run FE acts w)) = (if existsb isCall acts then Some 0%nat else _saveEdit w).
Proof.
  induction acts as [| a rest IH]; intros w Inv.
  - cbn. auto.
  - cbn [run existsb]. unfold bind, ret.
    destruct (step_singleFlight FE base a w Inv) as (I1 & H1 & C1).
    destruct (step FE a w) as [h w1]. cbn [fst snd] in *.
    destruct (IH w1 I1) as (I2 & H2 & C2).
    destruct (run FE rest w1) as [hs w2]. cbn [fst snd] in *.
    split; [assumption |]. split.
    + subst h. destruct (isCall a); [constructor; auto | assumption].
    + rewrite C2, C1. destruct (isCall a), (existsb isCall rest); reflexivity.
Qed.

Lemma constructor_fresh FE o :
  singleFlight [] (constructor FE o) /\ _saveEdit (constructor FE o) = None.
Proof.
  destruct o as [f c r ec sv st ro].
  unfold singleFlight, constructor, constructorBody, rebuildEditor, _offerToMakeFormula.
  run_ops. hide_editors. repeat (break_branch; cbn). 
  all: fold_docWrites; docWrites_norm; auto.
Qed.

Lemma singleFlight_counts base w :
  singleFlight base w ->
  List.length (promises w) = (match _saveEdit w with Some _ => 1 | None => 0 end)%nat /\
  exists ws, docWrites (log w) = base ++ ws /\ (List.length ws <= 1)%nat.
Proof.
  intros [(C & P & L) | (C & p & ws & P & L & N & _)]; rewrite C, P; split; try reflexivity.
  - exists []. rewrite app_nil_r. auto.
  - eauto.
Qed.

Ltac destruct_pane w :=
  destruct w as [pfield peditor pdisp ponsave poncancel pcache pproms plog].

Lemma pane_step_singleFlight base a w :
  paneSingleFlight base w ->
  paneSingleFlight base (snd (pane_step a w)) /\
  fst (pane_step a w) = (if isPaneCall a then Some 0%nat else None) /\
  saveEdit (snd (pane_step a w)) = (if isPaneCall a then Some 0%nat else saveEdit w).
Proof.
  unfold paneSingleFlight. destruct_pane w. cbn.
  intros [(C & P & L) | (C & p & ws & P & L & N)]; subst.
  - destruct a as [| q r | | c | v]; cbn;
      try solve [split; [left; auto | auto]].
    + unfold pane_saveEdit_call, asyncOnce, pane_doSave_call, pane_doSave_start, pane_dispose.
      cbn. repeat (break_branch; cbn); (split; [| auto]); right; (split; [reflexivity |]);
        do 2 eexists; (split; [reflexivity |]); fold_docWrites; rewrite ?docWrites_app; cbn;
        first [ split; [reflexivity |] | split; [symmetry; apply app_nil_r |] ]; cbn; lia.
    + destruct q; cbn; split; auto.
    + unfold pane_dispose. cbn. repeat (break_branch; cbn); (split; [| auto]); left;
        repeat split; fold_docWrites; rewrite ?docWrites_app; cbn; rewrite ?app_nil_r;
        reflexivity.
  - destruct a as [| q r | | c | v]; cbn;
      try solve [split; [right; eauto 10 | auto]].
    + destruct q as [| q]; cbn; [| destruct q; cbn; solve [split; [right; eauto 10 | auto]]].
      unfold pane_dispose. cbn.
      destruct p; cbn; [| solve [split; [right; eauto 10 | auto]]].
      destruct r; cbn; repeat (break_branch; cbn); (split; [| auto]); right;
        (split; [reflexivity |]); eexists; exists ws; (split; [reflexivity |]);
        unfold docWrites in *; rewrite ?filter_app; cbn; rewrite ?app_nil_r; auto.
    + unfold pane_dispose. cbn. repeat (break_branch; cbn); (split; [| auto]); right;
        (split; [reflexivity |]); eexists; exists ws; (split; [reflexivity |]);
        unfold docWrites in *; rewrite ?filter_app; cbn; rewrite ?app_nil_r; auto.
Qed.

Lemma pane_run_singleFlight base acts : forall w,
  paneSingleFlight base w ->
  paneSingleFlight base (snd (pane_run acts w)) /\
  Forall (fun h => h = 0%nat) (fst (pane_run acts w)) /\
  saveEdit (snd (pane_run acts w)) =
    (if existsb isPaneCall acts then Some 0%nat else saveEdit w).
Proof.
  induction acts as [| a rest IH]; intros w Inv.
  - cbn. auto.
  - cbn [pane_run existsb].
    destruct (pane_step_singleFlight base a w Inv) as (I1 & H1 & C1).
    destruct (pane_step a w) as [h w1]. cbn [fst snd] in *.
    destruct (IH w1 I1) as (I2 & H2 & C2).
    destruct (pane_run rest w1) as [hs w2]. cbn [fst snd] in *.
    split; [assumption |]. split.
    + subst h. destruct (isPaneCall a); [constructor; auto | assumption].
    + rewrite C2, C1. destruct (isPaneCall a), (existsb isPaneCall rest); reflexivity.
Qed.

Lemma openFormulaEditor_fresh FE o :
  paneSingleFlight [] (openFormulaEditor FE o) /\ saveEdit (openFormulaEditor FE o) = None.
Proof.
  unfold paneSingleFlight, openFormulaEditor. cbn. split; [| reflexivity]. left.
  repeat split. destruct (paneOptEditRow o); cbn; fold_docWrites;
    rewrite ?docWrites_app, ?getFormulaError_docWrites; reflexivity.
Qed.

Lemma paneSingleFlight_counts base w :
  paneSingleFlight base w ->
  List.length (panePromises w) = (match saveEdit w with Some _ => 1 | None => 0 end)%nat /\
  exists ws, docWrites (paneLog w) = base ++ ws /\ (List.length ws <= 1)%nat.
Proof.
  intros [(C & P & L) | (C & p & ws & P & L & N)]; rewrite C, P; split; try reflexivity.
  - exists []. rewrite app_nil_r. auto.
  - eauto.
Qed.

(** Two triggers before the first settles, and two after: one promise, one
    write. *)
Example double_trigger_single_write :
  let r := run Samples.FormulaEditor
             [CallSaveEdit; CallSaveEdit; SettlePrep 0 Resolved; CallSaveEdit;
              SettleWrite 0 Resolved; CallSaveEdit]
             (Samples.session Samples.dataColumn (Some "new") false) in
  fst r = [0; 0; 0; 0]%nat /\
  promises (snd r) = [Settled (Fulfilled false)] /\
  docWrites (log (snd r)) = [EvCellWrite (RowNum 5) "A" (VStr "new")].
Proof. vm_compute. repeat split. Qed.

Example pane_double_trigger_single_write :
  let r := pane_run [PaneCallSave; PaneCallSave; PaneSettle 0 Resolved; PaneCallSave]
             (Samples.pane Samples.formulaColumn false) in
  fst r = [0; 0; 0]%nat /\
  panePromises (snd r) = [PaneSettled Resolved] /\
  docWrites (paneLog (snd r)) = [EvColumnWrite (UpdateFormula (VStr "$B * 2"))] /\
  holderDisposed (snd r) = true.
Proof. vm_compute. repeat split. Qed.

(** C3. Save is single-flight.  In any run of turns of a session, from its
    construction on, every call of [_saveEdit] returns the same promise,
    [_doSaveEdit] is started once if there is a call at all (and never
    otherwise), the cache, once set, stays set whatever settles or is called
    later, and at most one write is sent to the document.  The same holds
    for the save of the stand-alone formula editor. *)
Theorem save_is_single_flight FE :
  (forall o acts,
     let r := run FE acts (constructor FE o) in
     let called := existsb isCall acts in
     Forall (fun h => h = 0%nat) (fst r) /\
     _saveEdit (snd r) = (if called then Some 0%nat else None) /\
     List.length (promises (snd r)) = (if called then 1 else 0)%nat /\
     (List.length (docWrites (log (snd r))) <= 1)%nat) /\
  (forall o acts,
     let r := pane_run acts (openFormulaEditor FE o) in
     let called := existsb isPaneCall acts in
     Forall (fun h => h = 0%nat) (fst r) /\
     saveEdit (snd r) = (if called then Some 0%nat else None) /\
     List.length (panePromises (snd r)) = (if called then 1 else 0)%nat /\
     (List.length (docWrites (paneLog (snd r))) <= 1)%nat).
Proof.
  split; intros o acts; cbv zeta.
  - destruct (constructor_fresh FE o) as [Inv C0].
    destruct (run_singleFlight FE [] acts _ Inv) as (I & H & C). rewrite C0 in C.
    destruct (singleFlight_counts [] _ I) as (N & ws & L & W).
    split; [assumption |]. split; [assumption |]. split.
    + rewrite N, C. destruct (existsb isCall acts); reflexivity.
    + rewrite L. cbn. assumption.
  - destruct (openFormulaEditor_fresh FE o) as [Inv C0].
    destruct (pane_run_singleFlight [] acts _ Inv) as (I & H & C). rewrite C0 in C.
    destruct (paneSingleFlight_counts [] _ I) as (N & ws & L & W).
    split; [assumption |]. split; [assumption |]. split.
    + rewrite N, C. destruct (existsb isPaneCall acts); reflexivity.
    + rewrite L. cbn. assumption.
Qed.

(** * Further properties of the controller *)

(** ** Entering formula mode *)

(** X1. [_makeFormula] at caret 0 outside formula-editing mode: on an empty
    column it returns [false], puts the session in formula mode and rebuilds
    the formula editor with the text unchanged and the caret at 0; on a
    column that is not empty it only shows the tooltip and returns [true];
    in every other case it returns [true] and changes nothing. *)
Theorem makeFormula_guard FE w :
  let r := _makeFormula FE w in
  (forall editor,
     _editorHolder w = Some editor ->
     editingFormula (_field w) = false ->
     getCursorPos editor = 0%Z ->
     isEmpty (column (_field w)) = true ->
     fst r = false /\
     inFormulaMode FE (snd r) /\
     editableText (snd r) = Some (getTextValue editor) /\
     (exists e, _editorHolder (snd r) = Some e /\ cursorPos (options e) = PosAt 0) /\
     (_readonly w = false -> editingFormula (_field (snd r)) = true)) /\
  (forall editor,
     _editorHolder w = Some editor ->
     editingFormula (_field w) = false ->
     getCursorPos editor = 0%Z ->
     isEmpty (column (_field w)) = false ->
     r = (true, with_log (log w ++ [EvTooltip]) w)) /\
  ((_editorHolder w = None \/
    editingFormula (_field w) = true \/
    (exists editor, _editorHolder w = Some editor /\ getCursorPos editor <> 0%Z)) ->
   r = (true, w)).
Proof.
  cbv zeta. split; [| split].
  - intros editor H EF CP EM.
    destruct_session w. cbn in H, EF, EM. subst holder ef.
    unfold _makeFormula, inFormulaMode, editableText. run_ops. rewrite CP, EM. cbn.
    unfold rebuildEditor. run_ops.
    destruct ro; cbn; repeat split; eauto; discriminate.
  - intros editor H EF CP EM.
    unfold _makeFormula, _offerToMakeFormula. run_ops. rewrite H, EF, CP, EM. cbn.
    rewrite H. reflexivity.
  - intros C. unfold _makeFormula. run_ops.
    destruct (_editorHolder w) as [editor |] eqn:H; [| reflexivity].
    destruct C as [C | [C | (ed & E & C)]].
    + discriminate.
    + rewrite C. reflexivity.
    + inversion E; subst ed. apply Z.eqb_neq in C. rewrite C, andb_false_r. reflexivity.
Qed.

Lemma makeFormula_guard_witness :
  let w := Scenarios.typedOnEmpty in
  let r := _makeFormula Samples.FormulaEditor w in
  fst r = false /\ inFormulaMode Samples.FormulaEditor (snd r) /\
  editableText (snd r) = Some "abc".
Proof.
  cbv zeta.
  edestruct (proj1 (makeFormula_guard Samples.FormulaEditor Scenarios.typedOnEmpty))
    as (A & B & C & _); [reflexivity | reflexivity | reflexivity | reflexivity |].
  auto.
Defined.

Lemma slice_one rest :
  String.substring 1 (String.length (String "="%char rest) - 1) (String "="%char rest) = rest.
Proof. cbn [String.length String.substring Nat.sub]. rewrite Nat.sub_0_r. apply substring_all. Qed.

(** X2. Accepting the tooltip's offer puts the session in formula mode with
    the editor's text minus one leading [=] (the text itself when it has
    none), the caret at 0, and sends nothing to the document; without an
    editor it does nothing. *)
Theorem convertEditorToFormula_strips FE w :
  (forall editor,
     _editorHolder w = Some editor ->
     let w' := snd (_convertEditorToFormula FE w) in
     inFormulaMode FE w' /\
     editableText w' = Some (stripLeadingEq (getTextValue editor)) /\
     (exists e, _editorHolder w' = Some e /\ cursorPos (options e) = PosAt 0) /\
     docWrites (log w') = docWrites (log w)) /\
  (_editorHolder w = None -> _convertEditorToFormula FE w = (tt, w)).
Proof.
  split.
  - intros editor H. cbv zeta.
    assert (T : (if startsWith (getTextValue editor) "="
                 then String.substring 1 (String.length (getTextValue editor) - 1)
                        (getTextValue editor)
                 else getTextValue editor) = stripLeadingEq (getTextValue editor)).
    { destruct (startsWith (getTextValue editor) "=") eqn:SW.
      - destruct (getTextValue editor) as [| ch rest]; [discriminate |].
        apply startsWith_eq_cons in SW. subst ch. rewrite slice_one. reflexivity.
      - symmetry. apply stripLeadingEq_other. exact SW. }
    destruct_session w. cbn in H. subst holder.
    unfold _convertEditorToFormula, inFormulaMode, editableText, rebuildEditor. run_ops.
    destruct ro; cbn; fold_docWrites; docWrites_norm; repeat split; eauto;
      unfold create; cbn; now rewrite T.
  - intros H. unfold _convertEditorToFormula. run_ops. rewrite H. reflexivity.
Qed.

Lemma convertEditorToFormula_strips_witness :
  let w' := snd (_convertEditorToFormula Samples.FormulaEditor
                   (Samples.session Samples.dataColumn (Some "=foo") false)) in
  inFormulaMode Samples.FormulaEditor w' /\ editableText w' = Some "foo".
Proof.
  cbv zeta.
  destruct (proj1 (convertEditorToFormula_strips Samples.FormulaEditor
                     (Samples.session Samples.dataColumn (Some "=foo") false)) _ eq_refl)
    as (A & B & _).
  split; [exact A | exact B].
Defined.

(** ** Cancel *)

(** X3. [_cancelEdit] is idempotent: a second cancel changes nothing.  A
    cancel never writes to the document, leaves the session disposed, and
    emits one cancel event on a live session and none on a disposed one. *)
Theorem cancelEdit_idempotent w :
  let w1 := snd (_cancelEdit w) in
  _cancelEdit w1 = (tt, w1) /\
  docWrites (log w1) = docWrites (log w) /\
  countOf isOutcome (log w1) =
    (countOf isOutcome (log w) + (if isDisposed w then 0 else 1))%nat /\
  isDisposed w1 = true.
Proof.
  cbv zeta. destruct (isDisposed w) eqn:D.
  - rewrite (cancelEdit_disposed w D). cbn [snd].
    rewrite (cancelEdit_disposed w D). auto.
  - destruct (cancelEdit_live w D) as (D1 & H1 & L1 & _).
    split; [apply cancelEdit_disposed; exact D1 |].
    unfold countOf. rewrite L1. unfold docWrites. rewrite !filter_app.
    destruct (_editorHolder w); cbn; rewrite ?app_nil_r, ?length_app; cbn; auto.
Qed.

(** ** What the editor is given to show *)

(** X4. The editor built by [rebuildEditor] is never given a censored
    marker to show: it gets the formula text on a formula column, the empty
    string for a censored cell, and the stored value otherwise. *)
Theorem rebuildEditor_never_shows_censored FE ev cp st w :
  exists e,
    _editorHolder (snd (rebuildEditor FE ev cp st w)) = Some e /\
    hasCode "C" (cellValue (options e)) = false /\
    (isFormula (column (_field w)) = true ->
       cellValue (options e) = VStr (formula (column (_field w)))) /\
    (isFormula (column (_field w)) = false ->
       hasCode "C" (cells (_editRow w) (fieldColId (_field w))) = true ->
       cellValue (options e) = VStr "") /\
    (isFormula (column (_field w)) = false ->
       hasCode "C" (cells (_editRow w) (fieldColId (_field w))) = false ->
       cellValue (options e) = cells (_editRow w) (fieldColId (_field w))).
Proof.
  destruct_session w. unfold rebuildEditor. run_ops.
  destruct ro, holder; cbn; (eexists; split; [reflexivity |]); unfold create; cbn;
    destruct (isFormula col); cbn;
    destruct (hasCode "C" (cells row fcid)) eqn:HC; cbn;
    repeat split; intros; try discriminate; try reflexivity; try assumption.
Qed.

(** ** Saving what the cell already holds *)

Lemma isEqual_refl v : isEqual v v = true.
Proof. apply isEqual_deepEquals, deepEquals_refl. Qed.

(** X5. Saving the value the cell already holds sends nothing, whatever the
    value (a [NaN], an array): so once a write has been applied to the cell,
    saving the same value again is silent. *)
Theorem setAndSave_applied_value_is_quiet editRow field v :
  setAndSave editRow field (cells editRow (fieldColId field)) = (PromiseDone, []) /\
  setAndSave (setCell (fieldColId field) v editRow) field v = (PromiseDone, []).
Proof.
  unfold setAndSave. split.
  - rewrite isEqual_refl. reflexivity.
  - cbn. rewrite String.eqb_refl, isEqual_refl. reflexivity.
Qed.

(** ** A save that is abandoned *)

(** X6. A save that is abandoned.  Without an editor [_doSaveEdit] returns
    [false] at once and touches nothing.  When the session was disposed
    while [prepForSave] was pending, the call logs the warning, returns
    [false], writes nothing to the document and emits no save event. *)
Theorem doSaveEdit_abandoned FE sch w :
  (_editorHolder w = None -> _doSaveEdit FE sch w = (Fulfilled false, w)) /\
  (forall editor,
     _editorHolder w = Some editor ->
     prepSettles sch = Resolved ->
     isDisposed (atResumption FE sch w) = true ->
     _doSaveEdit FE sch w =
       (Fulfilled false,
        with_log (log (atResumption FE sch w) ++ [EvWarn "Unable to finish saving edited cell"])
          (atResumption FE sch w)) /\
     docWrites (log (snd (_doSaveEdit FE sch w))) = docWrites (log w) /\
     countOf isOutcome (log (snd (_doSaveEdit FE sch w))) =
       countOf isOutcome (log (atResumption FE sch w))).
Proof.
  split.
  - intros H. unfold _doSaveEdit, doSaveEdit_start. run_ops. rewrite H. reflexivity.
  - intros editor H PS D.
    assert (E : _doSaveEdit FE sch w =
                (Fulfilled false,
                 with_log (log (atResumption FE sch w) ++
                             [EvWarn "Unable to finish saving edited cell"])
                   (atResumption FE sch w))).
    { unfold atResumption in *. unfold _doSaveEdit, bind.
      rewrite (doSaveEdit_start_spec w editor H) in *. cbn [snd] in *.
      destruct (env_run FE (duringPrep sch) (with_log (log w ++ [EvPrepForSave]) w))
        as [[] wp] eqn:E1. cbn [snd] in *.
      rewrite PS, (doSaveEdit_afterPrep_disposed editor wp D). reflexivity. }
    split; [exact E |]. rewrite E. cbn [snd]. cbn [log with_log].
    unfold countOf, docWrites. rewrite !filter_app. cbn. rewrite !app_nil_r.
    split; [| reflexivity].
    unfold atResumption. rewrite (doSaveEdit_start_spec w editor H). cbn [snd].
    destruct (env_run_frame FE (duringPrep sch) (with_log (log w ++ [EvPrepForSave]) w))
      as (_ & _ & F & _).
    unfold docWrites in F. rewrite F. cbn. rewrite filter_app. cbn. now rewrite app_nil_r.
Qed.

Lemma doSaveEdit_abandoned_witness :
  let sch := mkSchedule [CmdCancel] Resolved [] Resolved in
  let w := Samples.session Samples.dataColumn (Some "new") false in
  fst (_doSaveEdit Samples.FormulaEditor sch w) = Fulfilled false /\
  docWrites (log (snd (_doSaveEdit Samples.FormulaEditor sch w))) = docWrites (log w).
Proof.
  cbv zeta.
  edestruct (proj2 (doSaveEdit_abandoned Samples.FormulaEditor
                      (mkSchedule [CmdCancel] Resolved [] Resolved)
                      (Samples.session Samples.dataColumn (Some "new") false)))
    as (A & B & _); [reflexivity | reflexivity | vm_compute; reflexivity |].
  split; [rewrite A; reflexivity | exact B].
Defined.

(** ** The lifecycle invariant *)

Lemma getFormulaError_filter f editRow col :
  f EvFetchFormulaError = false -> filter f (snd (getFormulaError editRow col)) = [].
Proof. intros F. unfold getFormulaError. destruct (_ && _); cbn; [rewrite F |]; reflexivity. Qed.

Ltac count_norm :=
  unfold countOf in *;
  rewrite ?filter_app, ?length_app;
  rewrite ?getFormulaError_filter by reflexivity;
  cbn [filter isAttach isDisposeEditor isOutcome List.length app] in *.

Ltac lifecycle_close :=
  repeat split; intros; subst; cbn in *;
  try first [ congruence | lia | solve [intuition (congruence || lia)] ].

Ltac break_inner :=
  match goal with
  | |- context [if ?c then _ else _] => destruct c eqn:?
  | |- context [match ?x with Some _ => _ | None => _ end] => destruct x eqn:?
  end.

Ltac lifecycle_cases :=
  match goal with
  | I1 : ?d = true <-> ?h = None |- _ =>
      destruct d, h;
      [ exfalso; destruct I1 as [I1 _]; specialize (I1 eq_refl); discriminate
      | | | exfalso; destruct I1 as [_ I1]; specialize (I1 eq_refl); discriminate ];
      clear I1
  end.

Lemma env_step_lifecycle FE a w :
  lifecycle w -> lifecycle (snd (env_step FE a w)).
Proof.
  destruct_session w. unfold lifecycle, held. cbn.
  intros (I1 & I2 & I3 & I4). lifecycle_cases.
  all: try specialize (I4 eq_refl).
  all: destruct a;
    unfold env_step, _cancelEdit, _makeFormula, _unmakeFormula, _convertEditorToFormula,
      _offerToMakeFormula, onEditorStateChange, dispose, rebuildEditor; run_ops.
  all: hide_editors; repeat (break_inner; cbn).
  all: count_norm.
  all: lifecycle_close.
Qed.

Lemma step_lifecycle FE a w :
  lifecycle w -> lifecycle (snd (step FE a w)).
Proof.
  destruct a as [| p r | p r | e];
    [| | | intros Inv; pose proof (env_step_lifecycle FE e w Inv) as E;
           unfold step, bind, ret; destruct (env_step FE e w); exact E].
  - destruct_session w. unfold lifecycle, held. cbn.
    intros (I1 & I2 & I3 & I4). lifecycle_cases.
    all: try specialize (I4 eq_refl).
    all: unfold step, saveEdit_call, asyncOnce, doSaveEdit_call, doSaveEdit_start; run_ops.
    all: repeat (break_inner; cbn).
    all: count_norm.
    all: lifecycle_close.
  - destruct_session w. unfold lifecycle, held. cbn.
    intros (I1 & I2 & I3 & I4). lifecycle_cases.
    all: try specialize (I4 eq_refl).
    all: unfold step, settle; run_ops.
    all: destruct (nth_error proms p) as [[editor saveIndex | isF saveIndex wp | out] |];
      cbn; try solve [count_norm; lifecycle_close].
    all: destruct r; cbn; try solve [count_norm; lifecycle_close].
    all: unfold doSaveEdit_afterPrep, dispose, setAndSave; run_ops.
    all: repeat (break_inner; cbn).
    all: count_norm.
    all: lifecycle_close.
  - destruct_session w. unfold lifecycle, held. cbn.
    intros (I1 & I2 & I3 & I4). lifecycle_cases.
    all: try specialize (I4 eq_refl).
    all: unfold step, settle; run_ops.
    all: destruct (nth_error proms p) as [[editor saveIndex | isF saveIndex wp | out] |];
      cbn; try solve [count_norm; lifecycle_close].
    all: unfold awaitWrite, doSaveEdit_finish; run_ops.
    all: destruct wp as [[] |]; cbn; try destruct r; cbn.
    all: count_norm.
    all: lifecycle_close.
Qed.

Lemma run_lifecycle FE acts : forall w,
  lifecycle w -> lifecycle (snd (run FE acts w)).
Proof.
  induction acts as [| a rest IH]; intros w Inv; [exact Inv |].
  cbn [run]. unfold bind, ret.
  pose proof (step_lifecycle FE a w Inv) as I1.
  destruct (step FE a w) as [h w1]. cbn [snd] in I1.
  specialize (IH w1 I1). destruct (run FE rest w1) as [hs w2]. exact IH.
Qed.

Lemma constructor_lifecycle FE o : lifecycle (constructor FE o).
Proof.
  destruct o as [f c r ec sv st ro].
  unfold lifecycle, held, constructor, constructorBody, rebuildEditor, _offerToMakeFormula.
  run_ops. hide_editors. repeat (break_inner; cbn).
  all: count_norm.
  all: lifecycle_close.
Qed.

(** X7. In every run of turns from construction on, the session holds an
    editor exactly while it is not disposed, every editor attached has been
    disposed except the one held, and so a disposed session has disposed
    every editor it ever attached. *)
Theorem session_holds_editor_while_live FE o acts :
  let w := snd (run FE acts (constructor FE o)) in
  (isDisposed w = true <-> _editorHolder w = None) /\
  countOf isAttach (log w) = (countOf isDisposeEditor (log w) + held w)%nat /\
  (isDisposed w = true -> countOf isAttach (log w) = countOf isDisposeEditor (log w)).
Proof.
  cbv zeta.
  destruct (run_lifecycle FE acts _ (constructor_lifecycle FE o)) as (I1 & I2 & _).
  split; [exact I1 |]. split; [exact I2 |].
  intros D. apply I1 in D. rewrite I2. unfold held. rewrite D. lia.
Qed.

(** X8. In every run of turns from construction on, at most one save or
    cancel event is emitted in all, and none while the session is live. *)
Theorem session_closes_once FE o acts :
  let w := snd (run FE acts (constructor FE o)) in
  (countOf isOutcome (log w) <= 1)%nat /\
  (isDisposed w = false -> countOf isOutcome (log w) = 0%nat).
Proof.
  cbv zeta.
  destruct (run_lifecycle FE acts _ (constructor_lifecycle FE o)) as (_ & _ & I3 & I4).
  auto.
Qed.

(** ** The command tables *)

(** X9. The command table of a read-only session never saves: no command
    writes to the document or calls [_saveEdit]; [makeFormula] and
    [unmakeFormula] answer "propagate" and change nothing; each of the other
    five commands does exactly what cancel does. *)
Theorem readonly_commands_never_persist FE c w :
  _readonly w = true ->
  let r := runCommand FE c w in
  docWrites (log (snd r)) = docWrites (log w) /\
  _saveEdit (snd r) = _saveEdit w /\ promises (snd r) = promises w /\
  match c with
  | makeFormula | unmakeFormula => r = (Some true, w)
  | _ => fst r = None /\ isDisposed (snd r) = true /\ snd r = snd (_cancelEdit w)
  end.
Proof.
  intros RO. cbv zeta.
  assert (C : docWrites (log (snd (_cancelEdit w))) = docWrites (log w) /\
              _saveEdit (snd (_cancelEdit w)) = _saveEdit w /\
              promises (snd (_cancelEdit w)) = promises w /\
              isDisposed (snd (_cancelEdit w)) = true).
  { destruct (isDisposed w) eqn:Dw.
    - rewrite (cancelEdit_disposed w Dw). auto.
    - destruct (cancelEdit_live w Dw) as (D & _ & L & F1 & F2 & _).
      repeat split; auto.
      rewrite L, !docWrites_app, holderEvents_docWrites. cbn. now rewrite app_nil_r. }
  destruct C as (C1 & C2 & C3 & C4).
  unfold runCommand, bind, gets, ret. rewrite RO.
  destruct c; destruct (_cancelEdit w) as [[] w1]; cbn [fst snd] in *; repeat split; auto.
Qed.

Lemma readonly_commands_never_persist_witness :
  let w := Samples.session Samples.dataColumn (Some "new") true in
  let r := runCommand Samples.FormulaEditor fieldEditSave w in
  docWrites (log (snd r)) = docWrites (log w) /\
  _saveEdit (snd r) = _saveEdit w /\ promises (snd r) = promises w /\
  fst r = None /\ isDisposed (snd r) = true /\ snd r = snd (_cancelEdit w).
Proof.
  exact (readonly_commands_never_persist Samples.FormulaEditor fieldEditSave
           (Samples.session Samples.dataColumn (Some "new") true) eq_refl).
Defined.

(** X10. On a session that is disposed and holds no editor, every command
    of either table leaves the log, the field, the cursor and the row as
    they are. *)
Theorem released_session_ignores_commands FE c w :
  released w ->
  let r := runCommand FE c w in
  log (snd r) = log w /\ released (snd r) /\
  _field (snd r) = _field w /\ _cursor (snd r) = _cursor w /\ _editRow (snd r) = _editRow w.
Proof.
  destruct_session w. unfold released. cbn. intros [-> ->]. cbv zeta.
  unfold runCommand, _cancelEdit, _makeFormula, _unmakeFormula, saveEdit_call, asyncOnce,
    doSaveEdit_call, doSaveEdit_start.
  run_ops. destruct ro, c; cbn; try destruct cache; cbn; repeat split; auto.
Qed.

Lemma released_session_ignores_commands_witness :
  let w := snd (_cancelEdit (Samples.session Samples.dataColumn (Some "new") false)) in
  log (snd (runCommand Samples.FormulaEditor fieldEditSave w)) = log w.
Proof.
  cbv zeta.
  refine (proj1 (released_session_ignores_commands Samples.FormulaEditor fieldEditSave _ _)).
  vm_compute. split; reflexivity.
Defined.

(** ** What a save sends to the document *)

Lemma atResumption_docWrites FE sch w editor :
  _editorHolder w = Some editor ->
  docWrites (log (atResumption FE sch w)) = docWrites (log w).
Proof.
  intros H. unfold atResumption. rewrite (doSaveEdit_start_spec w editor H). cbn [snd].
  destruct (env_run_frame FE (duringPrep sch) (with_log (log w ++ [EvPrepForSave]) w))
    as (_ & _ & F & _).
  rewrite F. cbn [log with_log]. rewrite docWrites_app. cbn. now rewrite app_nil_r.
Qed.








(** ** Construction, further *)

(** X13. Constructed with typed text that does not begin with [=] (or with
    none), read-only or not, the session is in formula mode exactly when the
    column is a real formula, the editor gets the typed text as it is, no
    tooltip is shown, and the field enters formula-editing mode only for an
    editable session on a real formula with typed text. *)
Theorem constructor_plain_text FE o :
  startsWith (textOf (startVal o)) "=" = false ->
  let w := constructor FE o in
  _isFormula w = isRealFormula (column (optField o)) /\
  (exists e, _editorHolder w = Some e /\
     ctor e = (if isRealFormula (column (optField o)) then FE else optEditorCtor o)) /\
  editableText w = startVal o /\
  ~ In EvTooltip (log w) /\
  editingFormula (_field w) =
    (if optReadonly o then editingFormula (optField o)
     else isRealFormula (column (optField o)) &&
          match startVal o with Some _ => true | None => false end).
Proof.
  intros SW. cbv zeta. destruct o as [f c r ec sv st ro]. cbn in SW |- *.
  unfold constructor, constructorBody, editableText. run_ops.
  rewrite SW, andb_false_r. cbn. unfold rebuildEditor. run_ops.
  destruct ro; cbn; repeat split; eauto;
    try (intros I; repeat (apply in_app_or in I; destruct I as [I | I]);
         try (cbn in I; intuition discriminate);
         revert I; apply not_in_getFormulaError; discriminate).
Qed.

Lemma constructor_plain_text_witness :
  let w := Samples.session Samples.emptyColumn (Some "foo") false in
  _isFormula w = false /\ editableText w = Some "foo".
Proof.
  cbv zeta.
  destruct (constructor_plain_text Samples.FormulaEditor
              (Samples.optionsFor Samples.emptyColumn (Some "foo") false) eq_refl)
    as (A & _ & B & _).
  split; [exact A | exact B].
Defined.

(** X14. The constructor attaches exactly one editor, then shows the
    tooltip if any, then registers with the editor monitor, then sets up the
    cleanup matching the read-only flag; the editor gets the restored state,
    the caret at the end, the read-only flag and the matching command table;
    the session starts live and unmodified on the given field, cursor and
    row. *)
Theorem constructor_wiring FE o :
  let w := constructor FE o in
  exists e offer,
    _editorHolder w = Some e /\
    log w = snd (getFormulaError (optEditRow o) (column (optField o))) ++
            [EvAttach e] ++ offer ++ [EvMonitor; EvCleanup (optReadonly o)] /\
    (offer = [] \/ offer = [EvTooltip]) /\
    state (options e) = optState o /\
    cursorPos (options e) = PosInfinity /\
    readonly (options e) = optReadonly o /\
    commands (options e) = EditCommands (optReadonly o) /\
    isDisposed w = false /\ _editorHasChanged w = false /\
    column (_field w) = column (optField o) /\
    _cursor w = optCursor o /\ _editRow w = optEditRow o.
Proof.
  cbv zeta. destruct o as [f c r ec sv st ro].
  unfold constructor, constructorBody, rebuildEditor, _offerToMakeFormula. run_ops.
  repeat (break_inner; cbn); rewrite <- ?app_assoc; cbn;
    eexists;
    first [ exists (@nil Event); split; [reflexivity |]; split; [reflexivity |]
          | exists [EvTooltip]; split; [reflexivity |]; split; [reflexivity |] ];
    repeat split; auto.
Qed.

(** ** Formula mode that the field does not know of *)

(** X15. The mismatch noted in [_doSaveEdit]: an editable session opened on
    a real formula column without typed text is in formula mode while the
    field is not in formula-editing mode; saved with nothing happening in
    between, it takes the value branch, logs the "impossible" warning,
    writes nothing, and is fulfilled and disposed. *)
Theorem opened_formula_saves_as_value FE o sch :
  optReadonly o = false ->
  startVal o = None ->
  isRealFormula (column (optField o)) = true ->
  duringPrep sch = [] ->
  prepSettles sch = Resolved ->
  let w := constructor FE o in
  inFormulaMode FE w /\ editingFormula (_field w) = false /\
  exists b w',
    _doSaveEdit FE sch w = (Fulfilled b, w') /\
    In (EvWarn "It should be impossible to save a plain data value into a formula column")
       (log w') /\
    docWrites (log w') = [] /\ released w'.
Proof.
  intros RO SV RF DP PS. cbv zeta.
  assert (K : exists e,
             _editorHolder (constructor FE o) = Some e /\ ctor e = FE /\
             _isFormula (constructor FE o) = true /\
             editingFormula (_field (constructor FE o)) = false /\
             isDisposed (constructor FE o) = false /\
             isRealFormula (column (_field (constructor FE o))) = true).
  { destruct o as [f c r ec sv st ro]. cbn in RO, SV, RF. subst ro sv.
    unfold constructor, constructorBody, rebuildEditor. run_ops. rewrite RF. cbn.
    eexists. repeat split. }
  destruct K as (e & H & C & IF & EF & D & RF').
  split; [split; eauto |]. split; [exact EF |].
  assert (AR : atResumption FE sch (constructor FE o) =
               with_log (log (constructor FE o) ++ [EvPrepForSave]) (constructor FE o)).
  { unfold atResumption. rewrite (doSaveEdit_start_spec _ e H), DP. reflexivity. }
  assert (Live : isDisposed (atResumption FE sch (constructor FE o)) = false).
  { rewrite AR. exact D. }
  destruct (doSaveEdit_completes FE sch _ e H PS Live)
    as (wp & issued & settled & outcome & w1 & E & L & R & _ & _ & _ & O & N & _ & G).
  destruct G as [-> ->]; [rewrite AR; exact EF | rewrite AR; exact RF' |].
  destruct (N eq_refl) as [NT ->].
  destruct O as [O | O]; [contradiction |].
  eexists. exists w1. split; [rewrite E, O; reflexivity |].
  split; [| split; [| exact R]].
  - rewrite L. apply in_or_app. right. left. reflexivity.
  - rewrite L, !docWrites_app, holderEvents_docWrites.
    rewrite (atResumption_docWrites FE sch _ e H).
    destruct (constructor_fresh FE o) as [[(_ & _ & W) | (C0 & _)] C1]; [| congruence].
    rewrite W. reflexivity.
Qed.

Lemma opened_formula_saves_as_value_witness :
  exists b w',
    _doSaveEdit Samples.FormulaEditor Samples.writeFails Scenarios.openedFormula =
      (Fulfilled b, w') /\
    In (EvWarn "It should be impossible to save a plain data value into a formula column")
       (log w') /\
    docWrites (log w') = [] /\ released w'.
Proof.
  exact (proj2 (proj2 (opened_formula_saves_as_value Samples.FormulaEditor
                         (Samples.optionsFor Samples.formulaColumn None false)
                         Samples.writeFails eq_refl eq_refl eq_refl eq_refl eq_refl))).
Defined.

(** ** The stand-alone formula editor, further *)

Ltac pane_count_norm :=
  unfold countOf in *;
  rewrite ?filter_app, ?length_app;
  rewrite ?getFormulaError_filter by reflexivity;
  cbn [filter isColumnWrite isOnSave List.length app] in *.

Lemma pane_step_closing base cancelled a w :
  paneSingleFlight base w ->
  paneClosing cancelled w ->
  paneClosing (cancelled || isPaneCancel a) (snd (pane_step a w)) /\
  onSave (snd (pane_step a w)) = onSave w.
Proof.
  unfold paneSingleFlight, paneClosing. destruct_pane w. cbn.
  intros [(C & P & L) | (C & p & ws & P & L & N)] (K1 & K2 & K3 & K4); subst;
    destruct cancelled.
  all: destruct a as [| q r | | c | v]; cbn;
      unfold pane_saveEdit_call, asyncOnce, pane_doSave_call, pane_doSave_start, pane_dispose;
      cbn; try (destruct q as [| q]; cbn; [try (destruct p; cbn; try destruct r; cbn) | try (destruct q; cbn)]);
      repeat (break_inner; cbn); pane_count_norm;
      repeat split; intros; subst; cbn in *;
      try first [ congruence | lia | solve [intuition (congruence || lia)] ].
Qed.

Lemma pane_run_closing base acts : forall cancelled w,
  paneSingleFlight base w ->
  paneClosing cancelled w ->
  paneClosing (cancelled || existsb isPaneCancel acts) (snd (pane_run acts w)) /\
  onSave (snd (pane_run acts w)) = onSave w.
Proof.
  induction acts as [| a rest IH]; intros cancelled w SF K.
  - cbn. rewrite orb_false_r. auto.
  - cbn [pane_run existsb].
    destruct (pane_step_closing base cancelled a w SF K) as [K1 O1].
    destruct (pane_step_singleFlight base a w SF) as (SF1 & _).
    destruct (pane_step a w) as [h w1]. cbn [snd] in *.
    destruct (IH _ w1 SF1 K1) as [K2 O2].
    destruct (pane_run rest w1) as [hs w2]. cbn [snd] in *.
    rewrite orb_assoc. split; [exact K2 | congruence].
Qed.

Lemma openFormulaEditor_closing FE o : paneClosing false (openFormulaEditor FE o).
Proof.
  unfold paneClosing, openFormulaEditor. cbn.
  repeat split; try discriminate;
    intros; destruct (paneOptEditRow o); cbn; pane_count_norm; reflexivity.
Qed.



(** X17. The stand-alone formula editor, in every run of turns from its
    opening: with [onSave] given the column is never written directly, and
    without it the callback is never called. *)
Theorem pane_save_route_is_exclusive FE o acts :
  let w := snd (pane_run acts (openFormulaEditor FE o)) in
  (paneOptOnSave o = true -> countOf isColumnWrite (paneLog w) = 0%nat) /\
  (paneOptOnSave o = false -> countOf isOnSave (paneLog w) = 0%nat).
Proof.
  cbv zeta.
  destruct (openFormulaEditor_fresh FE o) as [SF _].
  destruct (pane_run_closing [] acts false _ SF (openFormulaEditor_closing FE o))
    as [(_ & _ & K3 & K4) O].
  cbn in O. rewrite O in K3, K4. auto.
Qed.

Lemma pane_save_route_is_exclusive_witness :
  countOf isColumnWrite
    (paneLog (snd (pane_run [PaneCallSave; PaneSettle 0 Resolved]
                     (Samples.pane Samples.formulaColumn true)))) = 0%nat.
Proof.
  exact (proj1 (pane_save_route_is_exclusive Samples.FormulaEditor
                  (mkPaneOptions (Samples.fieldOn Samples.formulaColumn) None
                     (Some "$B * 2") true false)
                  [PaneCallSave; PaneSettle 0 Resolved]) eq_refl).
Defined.

(** ** Into formula mode and back *)

(** X18. Into formula mode and back: on an editable session, with a
    formula editor that places the caret and shows the text as asked,
    [_makeFormula] on an empty column followed by [_unmakeFormula] returns
    [false], leaves the session in value mode with the original text behind
    a literal [=], the caret at 1, the field out of formula-editing mode,
    and nothing written. *)
Theorem makeFormula_then_unmakeFormula FE w editor :
  (forall o, cursorPos o = PosAt 0 -> viewCursorPos (render FE o) = 0%Z) ->
  (forall o t, editValue o = Some t -> viewTextValue (render FE o) = t) ->
  _readonly w = false ->
  _editorHolder w = Some editor ->
  editingFormula (_field w) = false ->
  getCursorPos editor = 0%Z ->
  isEmpty (column (_field w)) = true ->
  isRealFormula (column (_field w)) = false ->
  let r := _unmakeFormula FE (snd (_makeFormula FE w)) in
  fst r = false /\
  inValueMode (snd r) /\
  editableText (snd r) = Some (String "="%char (getTextValue editor)) /\
  (exists e, _editorHolder (snd r) = Some e /\ cursorPos (options e) = PosAt 1) /\
  editingFormula (_field (snd r)) = false /\
  docWrites (log (snd r)) = docWrites (log w).
Proof.
  intros Caret Text RO H EF CP EM RF. cbv zeta.
  destruct_session w. cbn in RO, H, EF, EM, RF. subst ro holder ef.
  unfold _makeFormula, _unmakeFormula, inValueMode, editableText, rebuildEditor.
  run_ops. rewrite CP, EM. cbn. unfold create, getCursorPos, getTextValue. cbn.
  rewrite Caret by reflexivity. rewrite RF. cbn.
  erewrite Text by reflexivity.
  fold_docWrites. rewrite !docWrites_app, !getFormulaError_docWrites. cbn.
  rewrite !app_nil_r.
  repeat split; eauto.
Qed.

Lemma makeFormula_then_unmakeFormula_witness :
  let r := _unmakeFormula Samples.FormulaEditor
             (snd (_makeFormula Samples.FormulaEditor Scenarios.typedOnEmpty)) in
  fst r = false /\ inValueMode (snd r) /\ editableText (snd r) = Some "=abc".
Proof.
  cbv zeta.
  edestruct (makeFormula_then_unmakeFormula Samples.FormulaEditor Scenarios.typedOnEmpty)
    as (A & B & C & _);
    [ intros o E; cbn; rewrite E; reflexivity
    | intros o t E; cbn; rewrite E; reflexivity
    | reflexivity | reflexivity | reflexivity | reflexivity | reflexivity | reflexivity | ].
  auto.
Defined.

(** ** Worked instances *)

Lemma rebuildEditor_never_shows_censored_witness :
  exists e,
    _editorHolder (snd (rebuildEditor Samples.FormulaEditor None PosInfinity None
                          Scenarios.censoredCell)) = Some e /\
    cellValue (options e) = VStr "".
Proof.
  destruct (rebuildEditor_never_shows_censored Samples.FormulaEditor None PosInfinity None
              Scenarios.censoredCell) as (e & H & _ & _ & C & _).
  exists e. split; [exact H |]. apply C; reflexivity.
Defined.

Lemma session_holds_editor_while_live_witness :
  let w := snd (run Samples.FormulaEditor
                  [Env CmdMakeFormula; CallSaveEdit; SettlePrep 0 Resolved]
                  (Samples.session Samples.emptyColumn None false)) in
  countOf isAttach (log w) = countOf isDisposeEditor (log w).
Proof.
  cbv zeta.
  apply (proj2 (proj2 (session_holds_editor_while_live Samples.FormulaEditor
                         (Samples.optionsFor Samples.emptyColumn None false)
                         [Env CmdMakeFormula; CallSaveEdit; SettlePrep 0 Resolved]))).
  vm_compute. reflexivity.
Defined.

Lemma session_closes_once_witness :
  let w := snd (run Samples.FormulaEditor [CallSaveEdit; Env (UserInput
                  (mkEditorView (VStr "x") "x" 1 (Some "x")))]
                  (Samples.session Samples.dataColumn (Some "new") false)) in
  countOf isOutcome (log w) = 0%nat.
Proof.
  cbv zeta.
  apply (proj2 (session_closes_once Samples.FormulaEditor
                  (Samples.optionsFor Samples.dataColumn (Some "new") false)
                  [CallSaveEdit; Env (UserInput (mkEditorView (VStr "x") "x" 1 (Some "x")))])).
  vm_compute. reflexivity.
Defined.
